(** * Attendance report service: reconciliation, classification, summary

    A shallow embedding of [src/services/reportService.ts] and of the
    computations of [src/components/ReportView.tsx].

    - JavaScript numbers are IEEE-754 binary64 values: Rocq's primitive
      [float], with the kernel's [*], [/], [+], [<?], [<=?], [=?]
      standing for the JavaScript operators ([=?] is [===] on numbers).
      [Math.round], [Math.floor], [%] and [Number.prototype.toString] are
      defined on the exact value of a double ([Prim2SF]).
    - A [Date] is a valid date, given by its time value: an integer number
      of milliseconds since the epoch.  [toISOString] is in UTC; [getDay]
      and [setHours] are in local time, at the UTC offset [tzOffset] of the
      host.  [setDate(getDate() + 1)] moves a date to the same local time of
      the next local day: this step is the host's, the variable [nextDay]
      of the section [ReportService].  On a host with a fixed UTC offset it
      adds 86400000 milliseconds ([dayLater]); across a daylight-saving
      change it adds 23 or 25 hours.  What is proved for every [nextDay]
      holds on every host; what needs the step of 24 hours says so.
    - [Set<string>] is [gset string], [Map<string, _>] is [gmap string _].
    - The constants of [src/constants] ([WEEKEND_DAYS], [FULL_DAY_HOURS],
      [HALF_DAY_HOURS]) are not part of the sources at hand; they are the
      variables of the section [ReportService].
    - Of [exportToExcel] the data handed to the spreadsheet library (the
      rows of both sheets, the fill colour of each row, the file name) is
      modelled, not the library.
    - Of [src/components/ReportView.tsx] the computations of the component
      are modelled ([fullDateRange], [filteredData], [recordsToShow],
      [summaryStats], [handleExport], [dateToInputValue], [missedPunch]),
      not its rendering; a filter date that is [null] or invalid is [None]. *)

From Stdlib Require Import ZArith Lia List Bool Ascii String.
From Stdlib Require Import Floats Sorted.
From stdpp Require Import base option list gmap strings.

Local Open Scope string_scope.
Local Open Scope Z_scope.
Set Warnings "-inexact-float".

(** ** JavaScript numbers *)

Abbreviation Number := PrimFloat.float.

Definition NaN : Number := PrimFloat.nan.
Definition Infinity : Number := PrimFloat.infinity.

(** [isNaN(x)] for a number [x]. *)
Definition isNaN (x : Number) : bool := PrimFloat.is_nan x.

(** The exact integer [n] as a number (rounded to nearest even when [n]
    needs more than 53 bits). *)
Definition Number_ofZ (n : Z) : Number :=
  SF2Prim (binary_normalize prec emax n 0 false).

(** [Math.floor]. *)
Definition Math_floor (x : Number) : Number :=
  match Prim2SF x with
  | S754_finite s m e =>
      if 0 <=? e then x else Number_ofZ (Z.shiftl (cond_Zopp s (Zpos m)) e)
  | _ => x
  end.

(** [Math.round]: the nearest integer, a tie going towards +Infinity. *)
Definition Math_round (x : Number) : Number :=
  match Prim2SF x with
  | S754_finite s m e =>
      if 0 <=? e then x
      else
        let r := (2 * cond_Zopp s (Zpos m) + 2 ^ (- e)) / 2 ^ (- e + 1) in
        if r =? 0 then (if s then PrimFloat.neg_zero else PrimFloat.zero)
        else Number_ofZ r
  | _ => x
  end.

(** The [%] operator: the exact remainder, with the sign of the dividend. *)
Definition Number_rem (n d : Number) : Number :=
  match Prim2SF n, Prim2SF d with
  | S754_nan, _ | _, S754_nan => NaN
  | S754_infinity _, _ => NaN
  | _, S754_zero _ => NaN
  | _, S754_infinity _ => n
  | S754_zero _, _ => n
  | S754_finite sn mn en, S754_finite _ md ed =>
      let e0 := Z.min en ed in
      let r := (Zpos mn * 2 ^ (en - e0)) mod (Zpos md * 2 ^ (ed - e0)) in
      if r =? 0 then (if sn then PrimFloat.neg_zero else PrimFloat.zero)
      else SF2Prim (binary_normalize prec emax (cond_Zopp sn r) e0 false)
  end.

(** ** Strings *)

Definition digitChar (d : Z) : ascii :=
  match d with
  | 0 => "0" | 1 => "1" | 2 => "2" | 3 => "3" | 4 => "4"
  | 5 => "5" | 6 => "6" | 7 => "7" | 8 => "8" | _ => "9"
  end%char.

Fixpoint decimal_go (fuel : nat) (n : Z) (acc : string) : string :=
  match fuel with
  | O => acc
  | S f =>
      let acc' := String (digitChar (n mod 10)) acc in
      if n <? 10 then acc' else decimal_go f (n / 10) acc'
  end.

(** The decimal numeral of a non-negative integer. *)
Definition decimal (n : Z) : string :=
  decimal_go (S (Z.to_nat (Z.log2 n))) n "".

(** Exactly [width] decimal digits of [n], most significant first. *)
Fixpoint fixedDigits (width : nat) (n : Z) : string :=
  match width with
  | O => ""
  | S w => String (digitChar ((n / 10 ^ Z.of_nat w) mod 10)) (fixedDigits w n)
  end.

Fixpoint repeatChar (c : ascii) (n : nat) : string :=
  match n with
  | O => ""
  | S k => String c (repeatChar c k)
  end.

(** [s.padStart(n, c)] for a one-character filler. *)
Definition padStart (n : nat) (c : ascii) (s : string) : string :=
  repeatChar c (n - String.length s) +:+ s.

(** [s.replace(c, r)] for a one-character string pattern: only the first
    occurrence is replaced. *)
Fixpoint String_replace (c r : ascii) (s : string) : string :=
  match s with
  | "" => ""
  | String a t =>
      if Ascii.eqb a c then String r t else String a (String_replace c r t)
  end.

(** [s.slice(n)]. *)
Definition sliceFrom (n : nat) (s : string) : string :=
  String.substring n (String.length s - n) s.

(** ** [Number.prototype.toString]

    The shortest decimal digit string [s] (of [k] digits) and exponent [n]
    with [s * 10^(n-k)] reading back as the same double. *)

(** The double nearest to the rational [p / q]. *)
Definition nearestDouble (p q : positive) : spec_float :=
  SFdiv prec emax (S754_finite false p 0) (S754_finite false q 0).

Fixpoint countDigits (fuel : nat) (n : Z) : Z :=
  match fuel with
  | O => 1
  | S f => if n <? 10 then 1 else 1 + countDigits f (n / 10)
  end.

(** The least [j >= 1] with [a * 10^j >= b]. *)
Fixpoint scaleUp (fuel : nat) (a b : Z) : Z :=
  match fuel with
  | O => 1
  | S f => if b <=? a * 10 then 1 else 1 + scaleUp f (a * 10) b
  end.

(** The [n] with [10^(n-1) <= a/b < 10^n]. *)
Definition decimalExponent (a b : Z) : Z :=
  if b <=? a then countDigits (S (Z.to_nat (Z.log2 a))) (a / b)
  else 1 - scaleUp (S (Z.to_nat (Z.log2 b))) a b.

Fixpoint shortest (fuel : nat) (k : Z) (x : spec_float) (a b n0 : Z) : Z * Z * Z :=
  let num := if n0 <=? k then a * 10 ^ (k - n0) else a in
  let den := if n0 <=? k then b else b * 10 ^ (n0 - k) in
  let lo := num / den in
  let hi := lo + 1 in
  let back (c : Z) :=
    let p := if n0 <=? k then c else c * 10 ^ (n0 - k) in
    let q := if n0 <=? k then 10 ^ (k - n0) else 1 in
    SFeqb (nearestDouble (Z.to_pos p) (Z.to_pos q)) x in
  let pick (c : Z) :=
    if c =? 10 ^ k then (10 ^ (k - 1), k, n0 + 1) else (c, k, n0) in
  match fuel with
  | O => pick lo
  | S f =>
      if back lo && back hi then
        (if num - lo * den <? hi * den - num then pick lo
         else if hi * den - num <? num - lo * den then pick hi
         else if Z.even lo then pick lo else pick hi)
      else if back lo then pick lo
      else if back hi then pick hi
      else shortest f (k + 1) x a b n0
  end.

Definition formatDigits (s k n : Z) : string :=
  let D := decimal s in
  if (k <=? n) && (n <=? 21) then D +:+ repeatChar "0" (Z.to_nat (n - k))
  else if (0 <? n) && (n <=? 21) then
    String.substring 0 (Z.to_nat n) D +:+ "." +:+ sliceFrom (Z.to_nat n) D
  else if (-6 <? n) && (n <=? 0) then
    "0." +:+ repeatChar "0" (Z.to_nat (- n)) +:+ D
  else
    let e := n - 1 in
    let es := (if e <? 0 then "-" else "+") +:+ decimal (Z.abs e) in
    if k =? 1 then D +:+ "e" +:+ es
    else String.substring 0 1 D +:+ "." +:+ sliceFrom 1 D +:+ "e" +:+ es.

Definition Number_toString (x : Number) : string :=
  match Prim2SF x with
  | S754_nan => "NaN"
  | S754_zero _ => "0"
  | S754_infinity s => if s then "-Infinity" else "Infinity"
  | S754_finite sg m e =>
      let a := if 0 <=? e then Zpos m * 2 ^ e else Zpos m in
      let b := if 0 <=? e then 1 else 2 ^ (- e) in
      let '(s, k, n) :=
        shortest 17 1 (S754_finite false m e) a b (decimalExponent a b) in
      (if sg then "-" else "") +:+ formatDigits s k n
  end.

(** ** Dates

    A [Date] is its time value [t] (milliseconds since 1970-01-01T00:00Z). *)

Definition msPerDay : Z := 86400000.

Definition msPerHour : Z := 3600000.

(** The UTC day number of a time value. *)
Definition Day (t : Z) : Z := t / msPerDay.

(** A time value a [Date] can hold (ECMAScript's TimeClip range). *)
Definition validTime (t : Z) : Prop :=
  -8640000000000000 <= t <= 8640000000000000.

(** Year, month (1..12) and day of month (1..31) of a day number in the
    proleptic Gregorian calendar. *)
Definition civilFromDays (z : Z) : Z * Z * Z :=
  let z := z + 719468 in
  let era := z / 146097 in
  let doe := z - era * 146097 in
  let yoe := (doe - doe / 1460 + doe / 36524 - doe / 146096) / 365 in
  let doy := doe - (365 * yoe + yoe / 4 - yoe / 100) in
  let mp := (5 * doy + 2) / 153 in
  let d := doy - (153 * mp + 2) / 5 + 1 in
  let m := if mp <? 10 then mp + 3 else mp - 9 in
  (if m <=? 2 then yoe + era * 400 + 1 else yoe + era * 400, m, d).

Definition daysFromCivil (c : Z * Z * Z) : Z :=
  let '(y, m, d) := c in
  let y := if m <=? 2 then y - 1 else y in
  let era := y / 400 in
  let yoe := y - era * 400 in
  let doy := (153 * (if 2 <? m then m - 3 else m + 9) + 2) / 5 + d - 1 in
  let doe := yoe * 365 + yoe / 4 - yoe / 100 + doy in
  era * 146097 + doe - 719468.

(** The year of an ISO date: four digits, or a sign and six digits outside
    0..9999. *)
Definition yearString (y : Z) : string :=
  if (0 <=? y) && (y <=? 9999) then fixedDigits 4 y
  else String (if y <? 0 then "-"%char else "+"%char) (fixedDigits 6 (Z.abs y)).

(** [d.toISOString().split('T')[0]]: the UTC calendar date, YYYY-MM-DD. *)
Definition toISODate (t : Z) : string :=
  let '(y, m, d) := civilFromDays (Day t) in
  yearString y +:+ String "-" (fixedDigits 2 m +:+ String "-" (fixedDigits 2 d)).

(** ** Data model (src/types) *)

Inductive AttendanceStatus :=
  | PRESENT
  | ABSENT
  | HALF_DAY
  | SHORT_HOURS
  | WEEKEND
  | HOLIDAY
  | WORK_ON_WEEKEND
  | WORK_ON_HOLIDAY
  | UNKNOWN.

#[global] Instance AttendanceStatus_eq_dec : EqDecision AttendanceStatus.
Proof. solve_decision. Defined.

Record AttendanceRecord := mkRecord {
  id : string;
  date : Z;                       (* Date: time value in milliseconds *)
  name : string;
  inTime : option string;
  outTime : option string;
  totalHours : option string;
  workHoursDecimal : Number;
  status : AttendanceStatus;
  reason : string;
  isAiEnhanced : bool
}.

Record EmployeeData := mkEmployee {
  employeeName : string;
  records : list AttendanceRecord
}.

Module Holiday.
Record t := mk { date : string; name : string }.
End Holiday.

(** [record.status = s] as a functional update. *)
Definition set_status (r : AttendanceRecord) (s : AttendanceStatus) : AttendanceRecord :=
  mkRecord (id r) (date r) (name r) (inTime r) (outTime r) (totalHours r)
           (workHoursDecimal r) s (reason r) (isAiEnhanced r).

(** [{...r, date: d}]. *)
Definition set_date (r : AttendanceRecord) (d : Z) : AttendanceRecord :=
  mkRecord (id r) d (name r) (inTime r) (outTime r) (totalHours r)
           (workHoursDecimal r) (status r) (reason r) (isAiEnhanced r).

(** A [Stat] value is a number or a formatted string. *)
Inductive StatValue :=
  | VNumber (n : Z)
  | VString (s : string).

Record Stat := mkStat {
  label : string;
  value : StatValue;
  color : string;
  totalHoursDecimal : option Number
}.

(** ** The service (src/services/reportService.ts) *)

(** [decimalToTimeString] *)
Definition decimalToTimeString (decimalHours : Number) : string :=
  if isNaN decimalHours || (decimalHours <? 0)%float then "0:00"
  else
    let totalMinutes := Math_round (decimalHours * 60)%float in
    let hours := Math_floor (totalMinutes / 60)%float in
    let minutes := Number_rem totalMinutes 60%float in
    padStart 2 "0" (Number_toString hours) +:+ ":" +:+
    padStart 2 "0" (Number_toString minutes).

(** The counters [generateSummaryStats] computes before it builds its
    result. *)
Record Counters := mkCounters {
  totalDays : Z;
  present : Z;
  absent : Z;
  halfDays : Z;
  shortHours : Z;
  holidays : Z;
  weekends : Z;
  workOnHoliday : Z
}.

Definition count (P : AttendanceRecord -> Prop) `{!forall r, Decision (P r)}
    (records : list AttendanceRecord) : Z :=
  Z.of_nat (length (filter P records)).

Definition summaryCounters (records : list AttendanceRecord) : Counters :=
  {| totalDays := Z.of_nat (length records);
     present := count (fun r => status r = PRESENT) records;
     absent := count (fun r => status r = ABSENT) records;
     halfDays := count (fun r => status r = HALF_DAY) records;
     shortHours := count (fun r => status r = SHORT_HOURS) records;
     holidays :=
       count (fun r => status r = HOLIDAY \/ status r = WORK_ON_HOLIDAY) records;
     weekends :=
       count (fun r => status r = WEEKEND \/ status r = WORK_ON_WEEKEND) records;
     workOnHoliday := count (fun r => status r = WORK_ON_HOLIDAY) records |}.

(** [records.reduce((sum, r) => sum + r.workHoursDecimal, 0)] *)
Definition sumHours (records : list AttendanceRecord) : Number :=
  foldl (fun sum r => (sum + workHoursDecimal r)%float) 0%float records.

(** [generateSummaryStats] *)
Definition generateSummaryStats (records : list AttendanceRecord) : list Stat :=
  let c := summaryCounters records in
  let totalWorkableDays := totalDays c - holidays c - weekends c in
  let totalHoursDecimal := sumHours records in
  let totalHoursFormatted := decimalToTimeString totalHoursDecimal in
  [ mkStat "Total Workable Days" (VNumber totalWorkableDays) "bg-blue-500" None;
    mkStat "Present Days" (VNumber (present c)) "bg-green-500" None;
    mkStat "Absent Days" (VNumber (absent c)) "bg-red-500" None;
    mkStat "Short/Half Days"
      (VString (decimal (shortHours c) +:+ "/" +:+ decimal (halfDays c)))
      "bg-yellow-500" None;
    mkStat "Work on Holiday" (VNumber (workOnHoliday c)) "bg-purple-500" None;
    mkStat "Total Hours Worked" (VString totalHoursFormatted) "bg-slate-700"
      (Some totalHoursDecimal) ].

(** The file name [exportToExcel] hands to [XLSX.writeFile]; [now] is the
    time value of [new Date()]. *)
Definition exportFileName (employeeName : string) (now : Z) : string :=
  "Attendance_Report_" +:+ String_replace " " "_" employeeName +:+ "_" +:+
  toISODate now +:+ ".xlsx".

(** [newRecords.sort((a, b) => a.date.getTime() - b.date.getTime())]:
    a stable sort by time value. *)
Fixpoint insertByDate (r : AttendanceRecord) (l : list AttendanceRecord)
    : list AttendanceRecord :=
  match l with
  | [] => [r]
  | x :: t => if date r <=? date x then r :: l else x :: insertByDate r t
  end.

Definition sortByDate (l : list AttendanceRecord) : list AttendanceRecord :=
  foldr insertByDate [] l.

(** The first loop of [analyzeData]: the least and greatest record date
    over all employees, [None] standing for [null]. *)
Definition rangeStep (st : option Z * option Z) (record : AttendanceRecord)
    : option Z * option Z :=
  let recordDate := date record in
  let minDate :=
    match st.1 with
    | None => Some recordDate
    | Some m => if recordDate <? m then Some recordDate else Some m
    end in
  let maxDate :=
    match st.2 with
    | None => Some recordDate
    | Some m => if m <? recordDate then Some recordDate else Some m
    end in
  (minDate, maxDate).

Definition dateRange (employees : list EmployeeData) : option Z * option Z :=
  foldl (fun st employee => foldl rangeStep st (records employee))
        (None, None) employees.

(** [new Map(employee.records.map(r => [key(r), {...r, date: new Date(r.date)}]))]:
    a later record of the same day replaces an earlier one. *)
Definition recordsMapOf (rs : list AttendanceRecord) : gmap string AttendanceRecord :=
  foldl (fun m r => <[toISODate (date r) := set_date r (date r)]> m) ∅ rs.

(** The record synthesized for a day without one. *)
Definition placeholder (employeeName : string) (currentDate : Z) : AttendanceRecord :=
  {| id := employeeName +:+ "-" +:+ toISODate currentDate;
     date := currentDate;
     name := employeeName;
     inTime := None;
     outTime := None;
     totalHours := None;
     workHoursDecimal := 0%float;
     status := UNKNOWN;
     reason := "";
     isAiEnhanced := false |}.

(** [d.setDate(d.getDate() + 1)] on a host with a fixed UTC offset: the
    same local time of the next local day is 24 hours later. *)
Definition dayLater (t : Z) : Z := t + msPerDay.

(** Iterations of [while (currentDate <= maxDate)] from [currentDate] on a
    host with a fixed UTC offset. *)
Definition walkFuel (currentDate maxDate : Z) : nat :=
  Z.to_nat ((maxDate - currentDate) / msPerDay + 1).

(** A bound on the iterations of [while (currentDate <= maxDate)] from
    [currentDate] on any host whose step to the next local day advances the
    time value by an hour at least. *)
Definition walkBound (currentDate maxDate : Z) : nat :=
  Z.to_nat ((maxDate - currentDate) / msPerHour + 1).

Section ReportService.

(** The constants of [src/constants], the host's UTC offset (in
    milliseconds, local minus UTC) and the host's step to the next local
    day, [d.setDate(d.getDate() + 1)] on time values. *)
Variable WEEKEND_DAYS : list Z.
Variable FULL_DAY_HOURS : Number.
Variable HALF_DAY_HOURS : Number.
Variable tzOffset : Z.
Variable nextDay : Z -> Z.

(** [d.getDay()]: the local day of the week, 0 for Sunday. *)
Definition getDay (t : Z) : Z := (Day (t + tzOffset) + 4) mod 7.

(** [getStatus] *)
Definition getStatus (record : AttendanceRecord) (holidayDates : gset string)
    : AttendanceStatus :=
  let dateString := toISODate (date record) in
  let dayOfWeek := getDay (date record) in
  let isHoliday := bool_decide (dateString ∈ holidayDates) in
  let isWeekend := bool_decide (dayOfWeek ∈ WEEKEND_DAYS) in
  if (0 <? workHoursDecimal record)%float then
    if isHoliday then WORK_ON_HOLIDAY
    else if isWeekend then WORK_ON_WEEKEND
    else if (FULL_DAY_HOURS <=? workHoursDecimal record)%float then PRESENT
    else if (HALF_DAY_HOURS <=? workHoursDecimal record)%float then SHORT_HOURS
    else HALF_DAY
  else
    if bool_decide (reason record = "Out of Office")
       && (workHoursDecimal record =? FULL_DAY_HOURS)%float then PRESENT
    else if isHoliday then HOLIDAY
    else if isWeekend then WEEKEND
    else ABSENT.

(** The body of [while (currentDate <= maxDate)] for one employee; the
    date advances to the next local day ([setDate(getDate() + 1)]) per
    iteration; [fuel] bounds the iterations. *)
Fixpoint walk (holidayDates : gset string) (employeeName : string)
    (recordsMap : gmap string AttendanceRecord) (maxDate : Z)
    (fuel : nat) (currentDate : Z) : list AttendanceRecord :=
  match fuel with
  | O => []
  | S fuel' =>
      if currentDate <=? maxDate then
        let dateString := toISODate currentDate in
        let record :=
          match recordsMap !! dateString with
          | Some r => r
          | None => placeholder employeeName currentDate
          end in
        set_status record (getStatus record holidayDates)
        :: walk holidayDates employeeName recordsMap maxDate fuel'
             (nextDay currentDate)
      else []
  end.

(** One iteration of [for (const employee of employees)]. *)
Definition analyzeEmployee (holidayDates : gset string) (minDate maxDate : Z)
    (employee : EmployeeData) : EmployeeData :=
  let recordsMap := recordsMapOf (records employee) in
  let newRecords :=
    walk holidayDates (employeeName employee) recordsMap maxDate
         (walkBound minDate maxDate) minDate in
  {| employeeName := employeeName employee;
     records := sortByDate newRecords |}.

(** [analyzeData] *)
Definition analyzeData (employees : list EmployeeData) (holidays : list Holiday.t)
    : list EmployeeData :=
  match employees with
  | [] => []
  | _ =>
      let holidayDates : gset string := list_to_set (Holiday.date <$> holidays) in
      match dateRange employees with
      | (Some minDate, Some maxDate) =>
          analyzeEmployee holidayDates minDate maxDate <$> employees
      | _ => employees
      end
  end.

End ReportService.

(** ** The data [exportToExcel] hands to the spreadsheet library *)

(** [EXCEL_STATUS_FILLS] *)
Definition EXCEL_STATUS_FILLS (s : AttendanceStatus) : string :=
  match s with
  | PRESENT => "dcfce7"
  | ABSENT => "fee2e2"
  | HALF_DAY => "fef9c3"
  | SHORT_HOURS => "fef3c7"
  | WEEKEND => "e2e8f0"
  | HOLIDAY => "e0f2fe"
  | WORK_ON_HOLIDAY => "e9d5ff"
  | WORK_ON_WEEKEND => "e0e7ff"
  | UNKNOWN => "f3f4f6"
  end.

(** The value of a cell: a string, a number, or a status. *)
Inductive Cell :=
  | CString (s : string)
  | CNumber (n : Z)
  | CStatus (s : AttendanceStatus).

Definition cellOf (v : StatValue) : Cell :=
  match v with
  | VNumber n => CNumber n
  | VString s => CString s
  end.

(** A string or [null] as a condition: [null] and the empty string are falsy. *)
Definition truthy (o : option string) : bool :=
  match o with
  | None => false
  | Some s => negb (String.eqb s "")
  end.

(** [o || d] for a string or [null] [o]. *)
Definition orElse (o : option string) (d : string) : string :=
  match o with
  | None => d
  | Some s => if String.eqb s "" then d else s
  end.

(** The header labels of the detail sheet. *)
Definition headers : list string :=
  ["Date"; "Day"; "In Time"; "Out Time"; "Total Hours"; "Status"; "Reason / Note"].

Section Sheets.

(** [d.toLocaleDateString()] and [d.toLocaleDateString('en-US', {weekday: 'long'})]
    depend on the host's locale: they are variables here. *)
Variable toLocaleDateString : Z -> string.
Variable weekdayLong : Z -> string.

(** [summaryData]: the rows of the first sheet. *)
Definition summaryData (summary : list Stat) (employeeName : string)
    (rangeStart rangeEnd : Z) : list (list Cell) :=
  [ [CString "Employee Attendance Summary"];
    [];
    [CString "Employee Name:"; CString employeeName];
    [CString "Period:";
     CString (toLocaleDateString rangeStart +:+ " - " +:+ toLocaleDateString rangeEnd)];
    [];
    [CString "Metric"; CString "Value"] ]
  ++ ((fun s => [CString (label s); cellOf (value s)]) <$> summary).

(** One object of [reportData]: its keys and values, in order. *)
Definition reportRow (r : AttendanceRecord) : list (string * Cell) :=
  [ ("Date", CString (toLocaleDateString (date r)));
    ("Day", CString (weekdayLong (date r)));
    ("InTime", CString (orElse (inTime r) "-"));
    ("OutTime", CString (orElse (outTime r) "-"));
    ("TotalHours", CString (orElse (totalHours r) "0:00"));
    ("Status", CStatus (status r));
    ("Reason", CString (orElse (Some (reason r)) "-")) ].

(** [reportData] *)
Definition reportData (records : list AttendanceRecord) : list (list (string * Cell)) :=
  reportRow <$> records.

End Sheets.

(** The fill colour [records.forEach] gives to the cells of each row: the
    row number (the header is row 0) and the colour. *)
Definition rowFills (records : list AttendanceRecord) : list (nat * string) :=
  imap (fun index record => (index + 1, EXCEL_STATUS_FILLS (status record)))%nat records.

(** ** The report view (src/components/ReportView.tsx) *)

(** [Array.prototype.sort] with a comparator: a stable sort; [cmp a b <= 0]
    keeps [a] before [b]. *)
Fixpoint insertWith {A : Type} (cmp : A -> A -> Z) (r : A) (l : list A) : list A :=
  match l with
  | [] => [r]
  | x :: t => if cmp r x <=? 0 then r :: l else x :: insertWith cmp r t
  end.

Definition sortWith {A : Type} (cmp : A -> A -> Z) (l : list A) : list A :=
  foldr (insertWith cmp) [] l.

(** [(a, b) => new Date(b.date).getTime() - new Date(a.date).getTime()] *)
Definition latestFirst (a b : AttendanceRecord) : Z := date b - date a.

(** [fullDateRange]: the least and greatest time value over all records,
    or the current time twice when there is no record. *)
Definition fullDateRange (now : Z) (data : list EmployeeData) : Z * Z :=
  let allDates := concat ((fun e => date <$> records e) <$> data) in
  match allDates with
  | [] => (now, now)
  | t :: ts => (foldl Z.min t ts, foldl Z.max t ts)
  end.

(** [summaryStats] *)
Definition summaryStats (selectedEmployee : string)
    (recordsToShow : list AttendanceRecord) : list Stat :=
  if bool_decide (selectedEmployee = "All") then []
  else generateSummaryStats recordsToShow.

(** [handleExport]: the name of the file written, or [None] when the
    handler alerts and returns. *)
Definition handleExport (selectedEmployee : string) (now : Z) : option string :=
  if bool_decide (selectedEmployee = "All") then None
  else Some (exportFileName selectedEmployee now).

(** [dateToInputValue]; [None] is [null] or an invalid date. *)
Definition dateToInputValue (d : option Z) : string :=
  match d with
  | Some t => toISODate t
  | None => ""
  end.

(** [missedPunch] of a table row. *)
Definition missedPunch (record : AttendanceRecord) : bool :=
  (truthy (inTime record) && negb (truthy (outTime record)))
  || (negb (truthy (inTime record)) && truthy (outTime record)
      && (0 <? workHoursDecimal record)%float).

Section ReportView.

(** The host's UTC offset and [String.prototype.localeCompare]. *)
Variable tzOffset : Z.
Variable localeCompare : string -> string -> Z.

(** [d.setHours(0, 0, 0, 0)]: the time value of local midnight of the day
    of [t]. *)
Definition setHoursMidnight (t : Z) : Z :=
  (t + tzOffset) / msPerDay * msPerDay - tzOffset.

(** [filteredData]; a filter date is [None] when it is [null] or invalid. *)
Definition filteredData (selectedEmployee : string)
    (filterStartDate filterEndDate : option Z) (data : list EmployeeData)
    : list EmployeeData :=
  match filterStartDate, filterEndDate with
  | Some startDate, Some endDate =>
      let startTime := setHoursMidnight startDate in
      let endTime := setHoursMidnight endDate in
      filter
        (fun emp => selectedEmployee = "All" \/ employeeName emp = selectedEmployee)
        ((fun emp =>
            {| employeeName := employeeName emp;
               records :=
                 filter (fun rec =>
                           startTime <= setHoursMidnight (date rec)
                           /\ setHoursMidnight (date rec) <= endTime)
                        (records emp) |}) <$> data)
  | _, _ => []
  end.

(** The comparator of the all-employees table: latest first, then by name. *)
Definition latestFirstThenName (a b : AttendanceRecord) : Z :=
  let dateComp := date b - date a in
  if negb (dateComp =? 0) then dateComp
  else localeCompare (name a) (name b).

(** [recordsToShow] *)
Definition recordsToShow (selectedEmployee : string)
    (filtered : list EmployeeData) : list AttendanceRecord :=
  if bool_decide (selectedEmployee = "All") then
    sortWith latestFirstThenName (concat (records <$> filtered))
  else
    match List.find (fun e => bool_decide (employeeName e = selectedEmployee)) filtered with
    | Some emp => sortWith latestFirst (records emp)
    | None => []
    end.

End ReportView.


(** ** Definitions used by the statements *)

(** How many records of a sequence carry status [s] (the spec's "count of"). *)
Fixpoint occurrences (s : AttendanceStatus) (records : list AttendanceRecord) : Z :=
  match records with
  | [] => 0
  | r :: rest => (if decide (status r = s) then 1 else 0) + occurrences s rest
  end.

(** All records of all employees, in order. *)
Definition allRecords (employees : list EmployeeData) : list AttendanceRecord :=
  concat (records <$> employees).

(** [mn] and [mx] are the least and the greatest date of [rs]. *)
Definition isRange (rs : list AttendanceRecord) (mn mx : Z) : Prop :=
  (exists r, r ∈ rs /\ date r = mn)
  /\ (exists r, r ∈ rs /\ date r = mx)
  /\ Forall (fun r => mn <= date r <= mx) rs.

(** Both bounds of the first loop are dates. *)
Definition bothSome (st : option Z * option Z) : Prop :=
  exists mn mx, st = (Some mn, Some mx).

(** The dates the loop visits on a host with a fixed UTC offset: [n] days
    from [currentDate]. *)
Fixpoint walkDates (n : nat) (currentDate : Z) : list Z :=
  match n with
  | O => []
  | S n' => currentDate :: walkDates n' (currentDate + msPerDay)
  end.

(** The dates of [n] iterations of the loop from [currentDate]. *)
Fixpoint visits (nextDay : Z -> Z) (n : nat) (currentDate : Z) : list Z :=
  match n with
  | O => []
  | S n' => currentDate :: visits nextDay n' (nextDay currentDate)
  end.

(** The record the loop pushes for the day of [currentDate]. *)
Definition emitted (WEEKEND_DAYS : list Z) (FULL_DAY_HOURS HALF_DAY_HOURS : Number)
    (tzOffset : Z) (holidayDates : gset string) (employeeName : string)
    (recordsMap : gmap string AttendanceRecord) (currentDate : Z) : AttendanceRecord :=
  let record :=
    match recordsMap !! toISODate currentDate with
    | Some r => r
    | None => placeholder employeeName currentDate
    end in
  set_status record
    (getStatus WEEKEND_DAYS FULL_DAY_HOURS HALF_DAY_HOURS tzOffset record holidayDates).

(** Ascending by time value. *)
Definition byDate (a b : AttendanceRecord) : Prop := date a <= date b.

(** A record whose date is a valid time value at the time of day [tod]
    (milliseconds after UTC midnight). *)
Definition onTime (tod : Z) (r : AttendanceRecord) : Prop :=
  validTime (date r) /\ date r mod msPerDay = tod.

(** The calendar days of the records of each employee. *)
Definition calendarDays (employees : list EmployeeData) : list (list string) :=
  map (fun e => map (fun r => toISODate (date r)) (records e)) employees.

(** What [n % 60] is for an integer [n]: [v = n mod 60], carried at the
    exponent [-k] the operands are aligned at. *)
Definition remainder60 (v k : Z) : Number :=
  if v * 2 ^ k =? 0 then PrimFloat.zero
  else SF2Prim (binary_normalize prec emax (v * 2 ^ k) (- k) false).

(** [c] does not occur in [s]. *)
Fixpoint absent_from (c : ascii) (s : string) : bool :=
  match s with
  | "" => true
  | String a t => negb (Ascii.eqb a c) && absent_from c t
  end.

(** The rendered minutes are the two digits of [v]. *)
Definition minutesRendering (v k : Z) : bool :=
  String.eqb (padStart 2 "0" (Number_toString (remainder60 v k))) (fixedDigits 2 v).

(** The sign bit of a finite or infinite number is clear. *)
Definition signClear (y : Number) : Prop :=
  match Prim2SF y with
  | S754_finite s _ _ | S754_infinity s => s = false
  | _ => True
  end.

(** [r'] is a record of [rs], or the placeholder of some day, with its
    status recomputed by [getStatus]. *)
Definition reclassified (WEEKEND_DAYS : list Z) (FULL_DAY_HOURS HALF_DAY_HOURS : Number)
    (tzOffset : Z) (holidayDates : gset string) (employeeName : string)
    (rs : list AttendanceRecord) (r' : AttendanceRecord) : Prop :=
  exists r0,
    (r0 ∈ rs \/ exists currentDate, r0 = placeholder employeeName currentDate)
    /\ r' = set_status r0
              (getStatus WEEKEND_DAYS FULL_DAY_HOURS HALF_DAY_HOURS tzOffset r0 holidayDates).

(** The employees with the status of every record reset to [UNKNOWN]. *)
Definition unclassified (employees : list EmployeeData) : list EmployeeData :=
  (fun e => {| employeeName := employeeName e;
               records := (fun r => set_status r UNKNOWN) <$> records e |}) <$> employees.

(** Latest first. *)
Definition byDateDesc (a b : AttendanceRecord) : Prop := date b <= date a.

(** The local day number of a time value at the UTC offset [tzOffset]. *)
Definition localDay (tzOffset t : Z) : Z := Day (t + tzOffset).

(** The day of the record is in the holiday list. *)
Definition onHoliday (holidayDates : gset string) (r : AttendanceRecord) : bool :=
  bool_decide (toISODate (date r) ∈ holidayDates).

(** The day of the record is a weekend day. *)
Definition onWeekend (WEEKEND_DAYS : list Z) (tzOffset : Z) (r : AttendanceRecord)
    : bool :=
  bool_decide (getDay tzOffset (date r) ∈ WEEKEND_DAYS).

(** The record has hours above zero. *)
Definition hasHours (r : AttendanceRecord) : bool :=
  (0 <? workHoursDecimal r)%float.

(** How many records satisfy [p]. *)
Definition countIf (p : AttendanceRecord -> bool) (rs : list AttendanceRecord) : Z :=
  Z.of_nat (length (List.filter p rs)).

(** The cell of a row object under a key. *)
Definition cellAt (key : string) (row : list (string * Cell)) : option Cell :=
  snd <$> List.find (fun kv => String.eqb kv.1 key) row.

(** The keys of a row object, in order. *)
Definition keysOf (row : list (string * Cell)) : list string := fst <$> row.

(** A cell holding a string that is not empty. *)
Definition filledCell (c : option Cell) : Prop :=
  exists s, c = Some (CString s) /\ s <> "".

(** ** Sample data *)

Definition defaultWeekend : list Z := [0; 6].

(** 2024-01-01T00:00:00Z, a Monday. *)
Definition jan1 : Z := 1704067200000.

(** An observed record of [h] hours at time [t]. *)
Definition observed (employee recordId : string) (t : Z) (h : Number)
    : AttendanceRecord :=
  {| id := recordId; date := t; name := employee; inTime := None; outTime := None;
     totalHours := None; workHoursDecimal := h; status := UNKNOWN;
     reason := ""; isAiEnhanced := false |}.

(** A zero-hours record marked "Out of Office" on Monday 2024-01-01. *)
Definition outOfOffice : AttendanceRecord :=
  {| id := "a-1"; date := jan1; name := "A"; inTime := None; outTime := None;
     totalHours := None; workHoursDecimal := 0%float; status := UNKNOWN;
     reason := "Out of Office"; isAiEnhanced := false |}.

(** A record of minus three hours on Monday 2024-01-01. *)
Definition negativeHours : AttendanceRecord := observed "A" "a-1" jan1 (-3)%float.

(** Three classified days: present, weekend, holiday. *)
Definition threeDays : list AttendanceRecord :=
  [ set_status (observed "A" "a-1" jan1 8) PRESENT;
    set_status (observed "A" "a-2" (jan1 + 5 * msPerDay) 0) WEEKEND;
    set_status (observed "A" "a-3" (jan1 + 7 * msPerDay) 0) HOLIDAY ].

(** One employee, seen on 2024-01-01 at 18:00Z and on 2024-01-03 at 09:00Z. *)
Definition eveningThenMorning : EmployeeData :=
  {| employeeName := "A";
     records := [ observed "A" "a-1" (jan1 + 18 * msPerHour) 8;
                  observed "A" "a-2" (jan1 + 2 * msPerDay + 9 * msPerHour) 8 ] |}.

(** One employee, seen on 2024-01-01 at 06:00Z, on 2024-01-02 at 05:00Z and
    on 2024-01-03 at 05:30Z. *)
Definition earlierEachDay : EmployeeData :=
  {| employeeName := "A";
     records := [ observed "A" "a-1" (jan1 + 6 * msPerHour) 8;
                  observed "A" "a-2" (jan1 + msPerDay + 5 * msPerHour) 8;
                  observed "A" "a-3" (jan1 + 2 * msPerDay + 5 * msPerHour + 1800000) 8 ] |}.

(** Two employees with dates at UTC midnight: A seen on 2024-01-01 and
    2024-01-03, B seen on 2024-01-02. *)
Definition atMidnight : list EmployeeData :=
  [ {| employeeName := "A";
       records := [ observed "A" "a-1" jan1 8;
                    observed "A" "a-3" (jan1 + 2 * msPerDay) 5 ] |};
    {| employeeName := "B";
       records := [ observed "B" "b-2" (jan1 + msPerDay) 2 ] |} ].

(** A worked 8 hours on Monday 2024-01-01; B has a zero-hours record on
    Friday 2024-01-05. *)
Definition mondayToFriday : list EmployeeData :=
  [ {| employeeName := "A"; records := [ observed "A" "a-1" jan1 8 ] |};
    {| employeeName := "B";
       records := [ observed "B" "b-5" (jan1 + 4 * msPerDay) 0 ] |} ].

(** The statuses of the records of each employee. *)
Definition statuses (employees : list EmployeeData) : list (list AttendanceStatus) :=
  map (fun e => map status (records e)) employees.

(** The ids of the records of each employee. *)
Definition recordIds (employees : list EmployeeData) : list (list string) :=
  map (fun e => map id (records e)) employees.

(** ** Comparisons of numbers *)

Lemma Prim2SF_zero : Prim2SF 0%float = S754_zero false.
Proof. reflexivity. Qed.

Lemma SFltb_zero (x : spec_float) :
  SFltb (S754_zero false) x =
  match x with
  | S754_infinity s | S754_finite s _ _ => negb s
  | _ => false
  end.
Proof. destruct x as [s|s| |s m e]; try destruct s; reflexivity. Qed.

(** A number that is not above zero is not [===] to one that is. *)
Lemma not_positive_neq_positive (h F : Number) :
  (0 <? h)%float = false -> (0 <? F)%float = true -> (h =? F)%float = false.
Proof.
  rewrite !FloatAxioms.ltb_spec, FloatAxioms.eqb_spec, Prim2SF_zero, !SFltb_zero.
  destruct (Prim2SF h) as [s|s| |s m e], (Prim2SF F) as [s'|s'| |s' m' e'];
    simpl; try discriminate; try reflexivity;
    destruct s, s'; simpl; try discriminate; reflexivity.
Qed.

(** [h <= 0] excludes [h > 0]. *)
Lemma le_zero_not_positive (h : Number) :
  (h <=? 0)%float = true -> (0 <? h)%float = false.
Proof.
  rewrite FloatAxioms.leb_spec, FloatAxioms.ltb_spec, Prim2SF_zero, SFltb_zero.
  destruct (Prim2SF h) as [s|s| |s m e]; simpl; try reflexivity;
    destruct s; simpl; try discriminate; reflexivity.
Qed.

(** [h == 0] excludes [h > 0]. *)
Lemma eq_zero_not_positive (h : Number) :
  (h =? 0)%float = true -> (0 <? h)%float = false.
Proof.
  rewrite FloatAxioms.eqb_spec, FloatAxioms.ltb_spec, Prim2SF_zero, SFltb_zero.
  destruct (Prim2SF h) as [s|s| |s m e]; simpl; try reflexivity;
    destruct s; simpl; try discriminate; reflexivity.
Qed.

(** ** The status classifier *)

Section Classifier.

Variable WEEKEND_DAYS : list Z.
Variable FULL_DAY_HOURS HALF_DAY_HOURS : Number.
Variable tzOffset : Z.
Variable record : AttendanceRecord.
Variable holidayDates : gset string.

Let classify := getStatus WEEKEND_DAYS FULL_DAY_HOURS HALF_DAY_HOURS tzOffset.
Let isHoliday : Prop := toISODate (date record) ∈ holidayDates.
Let isWeekend : Prop := getDay tzOffset (date record) ∈ WEEKEND_DAYS.

(** Hours above zero: holiday, then weekend, then the two thresholds. *)
Lemma getStatus_worked :
  (0 <? workHoursDecimal record)%float = true ->
  classify record holidayDates =
    if bool_decide isHoliday then WORK_ON_HOLIDAY
    else if bool_decide isWeekend then WORK_ON_WEEKEND
    else if (FULL_DAY_HOURS <=? workHoursDecimal record)%float then PRESENT
    else if (HALF_DAY_HOURS <=? workHoursDecimal record)%float then SHORT_HOURS
    else HALF_DAY.
Proof. intros H. unfold classify, getStatus. rewrite H. reflexivity. Qed.

(** Hours not above zero, the special case aside: holiday, weekend, absent. *)
Lemma getStatus_not_worked :
  (0 <? workHoursDecimal record)%float = false ->
  bool_decide (reason record = "Out of Office")
    && (workHoursDecimal record =? FULL_DAY_HOURS)%float = false ->
  classify record holidayDates =
    if bool_decide isHoliday then HOLIDAY
    else if bool_decide isWeekend then WEEKEND
    else ABSENT.
Proof. intros H Hs. unfold classify, getStatus. rewrite H, Hs. reflexivity. Qed.

(** With a positive full-day threshold the special case never fires in the
    branch of hours not above zero. *)
Lemma special_case_false :
  (0 <? FULL_DAY_HOURS)%float = true ->
  (0 <? workHoursDecimal record)%float = false ->
  bool_decide (reason record = "Out of Office")
    && (workHoursDecimal record =? FULL_DAY_HOURS)%float = false.
Proof.
  intros HF Hh. rewrite (not_positive_neq_positive _ _ Hh HF).
  apply andb_false_r.
Qed.

(** The classifier never answers [UNKNOWN]. *)
Lemma getStatus_not_UNKNOWN : classify record holidayDates <> UNKNOWN.
Proof.
  unfold classify, getStatus.
  repeat match goal with |- context [if ?b then _ else _] => destruct b end;
    discriminate.
Qed.

End Classifier.

(** C2: the decision policy of [getStatus], in its order: for hours above
    zero a holiday date gives WORK_ON_HOLIDAY (also on a weekend), else a
    weekend day gives WORK_ON_WEEKEND, else hours at or above the full-day
    threshold give PRESENT, else at or above the half-day threshold
    SHORT_HOURS, else HALF_DAY; for hours equal to zero, the Out of Office
    special case aside, a holiday gives HOLIDAY, else a weekend WEEKEND, else
    ABSENT.  With thresholds 8 and 4, on a day that is neither a holiday nor
    a weekend day: 8 hours are PRESENT, 5 SHORT_HOURS, 2 HALF_DAY, 0 ABSENT. *)
Theorem getStatus_decision_policy :
  (forall WEEKEND_DAYS FULL_DAY_HOURS HALF_DAY_HOURS tzOffset record holidayDates,
     let h := workHoursDecimal record in
     let result :=
       getStatus WEEKEND_DAYS FULL_DAY_HOURS HALF_DAY_HOURS tzOffset record holidayDates in
     let isHoliday := toISODate (date record) ∈ holidayDates in
     let isWeekend := getDay tzOffset (date record) ∈ WEEKEND_DAYS in
     ((0 <? h)%float = true ->
        (isHoliday -> result = WORK_ON_HOLIDAY) /\
        (~ isHoliday -> isWeekend -> result = WORK_ON_WEEKEND) /\
        (~ isHoliday -> ~ isWeekend ->
           (FULL_DAY_HOURS <=? h)%float = true -> result = PRESENT) /\
        (~ isHoliday -> ~ isWeekend ->
           (FULL_DAY_HOURS <=? h)%float = false ->
           (HALF_DAY_HOURS <=? h)%float = true -> result = SHORT_HOURS) /\
        (~ isHoliday -> ~ isWeekend ->
           (FULL_DAY_HOURS <=? h)%float = false ->
           (HALF_DAY_HOURS <=? h)%float = false -> result = HALF_DAY)) /\
     ((h =? 0)%float = true ->
        ~ (reason record = "Out of Office" /\ (h =? FULL_DAY_HOURS)%float = true) ->
        (isHoliday -> result = HOLIDAY) /\
        (~ isHoliday -> isWeekend -> result = WEEKEND) /\
        (~ isHoliday -> ~ isWeekend -> result = ABSENT))) /\
  (forall WEEKEND_DAYS tzOffset record holidayDates,
     toISODate (date record) ∉ holidayDates ->
     getDay tzOffset (date record) ∉ WEEKEND_DAYS ->
     let result := getStatus WEEKEND_DAYS 8 4 tzOffset record holidayDates in
     (workHoursDecimal record = 8%float -> result = PRESENT) /\
     (workHoursDecimal record = 5%float -> result = SHORT_HOURS) /\
     (workHoursDecimal record = 2%float -> result = HALF_DAY) /\
     (workHoursDecimal record = 0%float -> result = ABSENT)).
Proof.
  split.
  - intros W F Hf tz r hs. cbv zeta. split.
    + intros Hpos.
      rewrite (getStatus_worked W F Hf tz r hs Hpos).
      repeat split; intros; repeat case_bool_decide; try tauto;
        repeat match goal with H : _ = _ |- _ => rewrite H end; reflexivity.
    + intros Hz Hspecial.
      rewrite (getStatus_not_worked W F Hf tz r hs (eq_zero_not_positive _ Hz)).
      * repeat split; intros; repeat case_bool_decide; tauto.
      * apply andb_false_iff.
        destruct (decide (reason r = "Out of Office")) as [Hr|Hr].
        -- right. apply not_true_is_false. intros E.
           apply Hspecial. split; [exact Hr | exact E].
        -- left. apply bool_decide_eq_false. exact Hr.
  - intros W tz r hs Hh Hw. cbv zeta. unfold getStatus.
    rewrite (bool_decide_eq_false_2 _ Hh), (bool_decide_eq_false_2 _ Hw).
    repeat split; intros ->; simpl; try reflexivity.
    rewrite andb_false_r. reflexivity.
Qed.

Lemma getStatus_decision_policy_witness :
  getStatus defaultWeekend 8 4 0 (observed "A" "a-1" jan1 5) ∅ = SHORT_HOURS.
Proof.
  refine (proj1 (proj2 (proj2 getStatus_decision_policy
            defaultWeekend 0 (observed "A" "a-1" jan1 5) ∅ _ _)) eq_refl).
  - apply not_elem_of_empty.
  - refine (bool_decide_eq_false_1
              (getDay 0 (date (observed "A" "a-1" jan1 5)) ∈ defaultWeekend) _).
    reflexivity.
Defined.

(** C6: with a positive full-day threshold, the zero-hours special case
    (reason "Out of Office" and hours equal to the full-day threshold) is
    dead code: for every record that reaches the branch of hours not above
    zero (in particular every record with hours <= 0) the condition is false
    and the result is the holiday / weekend / absent rule. *)
Theorem out_of_office_case_unreachable
    WEEKEND_DAYS FULL_DAY_HOURS HALF_DAY_HOURS tzOffset record holidayDates :
  (0 <? FULL_DAY_HOURS)%float = true ->
  (workHoursDecimal record <=? 0)%float = true
  \/ (0 <? workHoursDecimal record)%float = false ->
  bool_decide (reason record = "Out of Office")
    && (workHoursDecimal record =? FULL_DAY_HOURS)%float = false
  /\ getStatus WEEKEND_DAYS FULL_DAY_HOURS HALF_DAY_HOURS tzOffset record holidayDates =
       if bool_decide (toISODate (date record) ∈ holidayDates) then HOLIDAY
       else if bool_decide (getDay tzOffset (date record) ∈ WEEKEND_DAYS) then WEEKEND
       else ABSENT.
Proof.
  intros HF Hbranch.
  assert (Hh : (0 <? workHoursDecimal record)%float = false).
  { destruct Hbranch as [Hle|Hn]; [apply le_zero_not_positive, Hle | exact Hn]. }
  pose proof (special_case_false FULL_DAY_HOURS record HF Hh) as Hs.
  split; [exact Hs|].
  apply getStatus_not_worked; assumption.
Qed.

Lemma out_of_office_case_unreachable_witness :
  bool_decide (reason outOfOffice = "Out of Office")
    && (workHoursDecimal outOfOffice =? 8)%float = false
  /\ getStatus defaultWeekend 8 4 0 outOfOffice ∅ = ABSENT.
Proof.
  exact (out_of_office_case_unreachable defaultWeekend 8 4 0 outOfOffice ∅
           eq_refl (or_introl eq_refl)).
Defined.

(** C10: the classifier is a total function of its arguments, and for every
    record with hours <= 0 (negative hours included), given a positive
    full-day threshold, it returns HOLIDAY on a holiday, else WEEKEND on a
    weekend day, else ABSENT, so never one of the work statuses. *)
Theorem getStatus_non_positive_hours
    WEEKEND_DAYS FULL_DAY_HOURS HALF_DAY_HOURS tzOffset record holidayDates :
  (0 <? FULL_DAY_HOURS)%float = true ->
  (workHoursDecimal record <=? 0)%float = true ->
  let result :=
    getStatus WEEKEND_DAYS FULL_DAY_HOURS HALF_DAY_HOURS tzOffset record holidayDates in
  result =
    (if bool_decide (toISODate (date record) ∈ holidayDates) then HOLIDAY
     else if bool_decide (getDay tzOffset (date record) ∈ WEEKEND_DAYS) then WEEKEND
     else ABSENT)
  /\ result ∉ [PRESENT; WORK_ON_HOLIDAY; WORK_ON_WEEKEND; SHORT_HOURS; HALF_DAY].
Proof.
  intros HF Hle result.
  pose proof (le_zero_not_positive _ Hle) as Hh.
  assert (E : result =
    (if bool_decide (toISODate (date record) ∈ holidayDates) then HOLIDAY
     else if bool_decide (getDay tzOffset (date record) ∈ WEEKEND_DAYS) then WEEKEND
     else ABSENT)).
  { apply getStatus_not_worked; [exact Hh | apply special_case_false; assumption]. }
  split; [exact E|].
  rewrite E.
  destruct (bool_decide _); [|destruct (bool_decide _)]; intros Hin;
    repeat (apply elem_of_cons in Hin as [Hin|Hin]; [discriminate|]);
    apply elem_of_nil in Hin; exact Hin.
Qed.

Lemma getStatus_non_positive_hours_witness :
  getStatus defaultWeekend 8 4 0 negativeHours ∅ = ABSENT
  /\ getStatus defaultWeekend 8 4 0 negativeHours ∅
       ∉ [PRESENT; WORK_ON_HOLIDAY; WORK_ON_WEEKEND; SHORT_HOURS; HALF_DAY].
Proof.
  exact (getStatus_non_positive_hours defaultWeekend 8 4 0 negativeHours ∅
           eq_refl eq_refl).
Defined.

(** ** The summary aggregator *)

Lemma count_cons (P : AttendanceRecord -> Prop) `{!forall r, Decision (P r)} r rs :
  count P (r :: rs) = (if decide (P r) then 1 else 0) + count P rs.
Proof.
  unfold count. rewrite filter_cons. destruct (decide (P r)); simpl; lia.
Qed.

Lemma count_status s rs : count (fun r => status r = s) rs = occurrences s rs.
Proof.
  induction rs as [|r rs IH]; [reflexivity|].
  rewrite count_cons. simpl. rewrite IH. reflexivity.
Qed.

Lemma count_either s1 s2 rs :
  s1 <> s2 ->
  count (fun r => status r = s1 \/ status r = s2) rs
  = occurrences s1 rs + occurrences s2 rs.
Proof.
  intros Hne. induction rs as [|r rs IH]; [reflexivity|].
  rewrite count_cons. simpl. rewrite IH.
  destruct (decide (status r = s1 \/ status r = s2)) as [[H|H]|H];
    repeat case_decide; try congruence; try tauto; lia.
Qed.

Lemma occurrences_partition rs :
  Forall (fun r => status r <> UNKNOWN) rs ->
  occurrences PRESENT rs + occurrences ABSENT rs + occurrences HALF_DAY rs
  + occurrences SHORT_HOURS rs
  + (occurrences HOLIDAY rs + occurrences WORK_ON_HOLIDAY rs)
  + (occurrences WEEKEND rs + occurrences WORK_ON_WEEKEND rs)
  = Z.of_nat (length rs).
Proof.
  induction 1 as [|r rs Hr _ IH]; [reflexivity|].
  cbn [occurrences length]. rewrite Nat2Z.inj_succ.
  destruct (status r); try congruence; repeat case_decide; try congruence; lia.
Qed.

(** The counters of [summaryCounters], in terms of [occurrences]. *)
Lemma summaryCounters_sum (records : list AttendanceRecord) :
  let c := summaryCounters records in
  present c + absent c + halfDays c + shortHours c + holidays c + weekends c
  = occurrences PRESENT records + occurrences ABSENT records
    + occurrences HALF_DAY records + occurrences SHORT_HOURS records
    + (occurrences HOLIDAY records + occurrences WORK_ON_HOLIDAY records)
    + (occurrences WEEKEND records + occurrences WORK_ON_WEEKEND records).
Proof. cbn. rewrite !count_status, !count_either by discriminate. reflexivity. Qed.

(** C7: for a record sequence without UNKNOWN statuses the counters of the
    summary aggregator partition the input: PRESENT + ABSENT + HALF_DAY +
    SHORT_HOURS + holidays (HOLIDAY and WORK_ON_HOLIDAY) + weekends (WEEKEND
    and WORK_ON_WEEKEND) is the number of input records. *)
Theorem summary_counters_partition (records : list AttendanceRecord) :
  Forall (fun r => status r <> UNKNOWN) records ->
  let c := summaryCounters records in
  present c + absent c + halfDays c + shortHours c + holidays c + weekends c
  = Z.of_nat (length records).
Proof.
  intros H. cbv zeta. rewrite summaryCounters_sum.
  apply occurrences_partition, H.
Qed.

Lemma summary_counters_partition_witness :
  let c := summaryCounters threeDays in
  present c + absent c + halfDays c + shortHours c + holidays c + weekends c
  = 3.
Proof.
  apply (summary_counters_partition threeDays).
  repeat constructor; discriminate.
Defined.

Lemma sumHours_fold_left (records : list AttendanceRecord) :
  sumHours records
  = fold_left (fun sum r => (sum + workHoursDecimal r)%float) records 0%float.
Proof.
  unfold sumHours. generalize 0%float.
  induction records as [|r rest IH]; intros sum; [reflexivity|]. simpl. apply IH.
Qed.

(** C8: the summary is six metrics in the fixed order Total Workable Days,
    Present Days, Absent Days, Short/Half Days, Work on Holiday, Total Hours
    Worked; workable days are all days minus the HOLIDAY and WORK_ON_HOLIDAY
    days minus the WEEKEND and WORK_ON_WEEKEND days; Short/Half Days is the
    string "{short}/{half}"; Total Hours Worked is the sum of
    workHoursDecimal (the hours of the records added to 0 one after the
    other, in the order of the records) through the clock formatter, with
    the raw sum attached. *)
Theorem generateSummaryStats_metrics (records : list AttendanceRecord) :
  let n s := occurrences s records in
  let total :=
    fold_left (fun sum r => (sum + workHoursDecimal r)%float) records 0%float in
  generateSummaryStats records =
    [ mkStat "Total Workable Days"
        (VNumber (Z.of_nat (length records)
                  - (n HOLIDAY + n WORK_ON_HOLIDAY)
                  - (n WEEKEND + n WORK_ON_WEEKEND)))
        "bg-blue-500" None;
      mkStat "Present Days" (VNumber (n PRESENT)) "bg-green-500" None;
      mkStat "Absent Days" (VNumber (n ABSENT)) "bg-red-500" None;
      mkStat "Short/Half Days"
        (VString (decimal (n SHORT_HOURS) +:+ "/" +:+ decimal (n HALF_DAY)))
        "bg-yellow-500" None;
      mkStat "Work on Holiday" (VNumber (n WORK_ON_HOLIDAY)) "bg-purple-500" None;
      mkStat "Total Hours Worked" (VString (decimalToTimeString total))
        "bg-slate-700" (Some total) ].
Proof.
  cbv zeta. unfold generateSummaryStats, summaryCounters. cbn [totalDays present
    absent halfDays shortHours holidays weekends workOnHoliday].
  rewrite !count_status, !count_either by discriminate.
  rewrite sumHours_fold_left. reflexivity.
Qed.

(** ** Calendar dates *)

Lemma civil_bounds (doe : Z) :
  0 <= doe <= 146096 ->
  let yoe := (doe - doe / 1460 + doe / 36524 - doe / 146096) / 365 in
  let doy := doe - (365 * yoe + yoe / 4 - yoe / 100) in
  0 <= yoe <= 399 /\ 0 <= doy <= 365.
Proof. intros H. cbv zeta. Z.div_mod_to_equations. lia. Qed.

(** Month and day of month are in range. *)
Lemma civilFromDays_range (z : Z) :
  let '(y, m, d) := civilFromDays z in 1 <= m <= 12 /\ 1 <= d <= 31.
Proof.
  unfold civilFromDays.
  set (z' := z + 719468). set (era := z' / 146097).
  set (doe := z' - era * 146097).
  assert (Hdoe : 0 <= doe <= 146096) by (subst doe era; Z.div_mod_to_equations; lia).
  destruct (civil_bounds doe Hdoe) as [Hy Hd]. cbv zeta in Hy, Hd.
  set (yoe := (doe - doe / 1460 + doe / 36524 - doe / 146096) / 365) in *.
  set (doy := doe - (365 * yoe + yoe / 4 - yoe / 100)) in *.
  set (mp := (5 * doy + 2) / 153).
  assert (Hmp : 0 <= mp <= 11) by (subst mp; Z.div_mod_to_equations; lia).
  split.
  - destruct (mp <? 10) eqn:E; [apply Z.ltb_lt in E | apply Z.ltb_ge in E]; lia.
  - subst mp. Z.div_mod_to_equations. lia.
Qed.

(** The day number is recovered from the civil date. *)
Lemma daysFromCivil_civilFromDays (z : Z) : daysFromCivil (civilFromDays z) = z.
Proof.
  unfold civilFromDays, daysFromCivil.
  set (z' := z + 719468). set (era := z' / 146097).
  set (doe := z' - era * 146097).
  assert (Hdoe : 0 <= doe <= 146096) by (subst doe era; Z.div_mod_to_equations; lia).
  destruct (civil_bounds doe Hdoe) as [Hy Hd]. cbv zeta in Hy, Hd.
  set (yoe := (doe - doe / 1460 + doe / 36524 - doe / 146096) / 365) in *.
  set (doy := doe - (365 * yoe + yoe / 4 - yoe / 100)) in *.
  set (mp := (5 * doy + 2) / 153).
  assert (Hmp : 0 <= mp <= 11) by (subst mp; Z.div_mod_to_equations; lia).
  destruct (mp <? 10) eqn:E; [apply Z.ltb_lt in E | apply Z.ltb_ge in E].
  - replace (mp + 3 <=? 2) with false by (symmetry; apply Z.leb_gt; lia).
    replace (2 <? mp + 3) with true by (symmetry; apply Z.ltb_lt; lia).
    replace ((yoe + era * 400) / 400) with era by (Z.div_mod_to_equations; lia).
    replace (mp + 3 - 3) with mp by lia.
    clearbody mp yoe. subst doy doe z'. clearbody era.
    Z.div_mod_to_equations. lia.
  - replace (mp - 9 <=? 2) with true by (symmetry; apply Z.leb_le; lia).
    replace (2 <? mp - 9) with false by (symmetry; apply Z.ltb_ge; lia).
    replace ((yoe + era * 400 + 1 - 1) / 400) with era by (Z.div_mod_to_equations; lia).
    replace (mp - 9 + 9) with mp by lia.
    clearbody mp yoe. subst doy doe z'. clearbody era.
    Z.div_mod_to_equations. lia.
Qed.

Lemma civilFromDays_inj (z1 z2 : Z) :
  civilFromDays z1 = civilFromDays z2 -> z1 = z2.
Proof.
  intros H. rewrite <- (daysFromCivil_civilFromDays z1), H.
  apply daysFromCivil_civilFromDays.
Qed.

(** The year of a valid time value has at most six digits. *)
Lemma civilFromDays_year (t : Z) :
  validTime t -> let '(y, _, _) := civilFromDays (Day t) in -999999 <= y <= 999999.
Proof.
  unfold validTime, Day, msPerDay, civilFromDays. intros Ht.
  set (z' := t / 86400000 + 719468). set (era := z' / 146097).
  set (doe := z' - era * 146097).
  assert (Hdoe : 0 <= doe <= 146096) by (subst doe era; Z.div_mod_to_equations; lia).
  destruct (civil_bounds doe Hdoe) as [Hy Hd]. cbv zeta in Hy, Hd.
  set (yoe := (doe - doe / 1460 + doe / 36524 - doe / 146096) / 365) in *.
  assert (-1000 <= era <= 1000) by (subst era z'; Z.div_mod_to_equations; lia).
  destruct (_ <=? 2); lia.
Qed.

(** *** Date strings *)

Lemma digit_cases (a : Z) :
  0 <= a <= 9 ->
  a = 0 \/ a = 1 \/ a = 2 \/ a = 3 \/ a = 4 \/ a = 5 \/ a = 6 \/ a = 7 \/ a = 8 \/ a = 9.
Proof. lia. Qed.

Ltac digit_split H :=
  apply digit_cases in H;
  destruct H as [->|[->|[->|[->|[->|[->|[->|[->|[->| ->]]]]]]]]].

Lemma digitChar_inj (a b : Z) :
  0 <= a <= 9 -> 0 <= b <= 9 -> digitChar a = digitChar b -> a = b.
Proof.
  intros Ha Hb. digit_split Ha; digit_split Hb; simpl; intros H;
    first [reflexivity | discriminate H].
Qed.

Lemma digitChar_not_sign (a : Z) (neg : bool) :
  0 <= a <= 9 -> digitChar a <> (if neg then "-"%char else "+"%char).
Proof. intros Ha. digit_split Ha; destruct neg; discriminate. Qed.

Lemma fixedDigits_2 (n : Z) :
  fixedDigits 2 n =
  String (digitChar ((n / 10) mod 10)) (String (digitChar ((n / 1) mod 10)) "").
Proof. reflexivity. Qed.

Lemma fixedDigits_4 (n : Z) :
  fixedDigits 4 n =
  String (digitChar ((n / 1000) mod 10)) (String (digitChar ((n / 100) mod 10))
    (fixedDigits 2 n)).
Proof. reflexivity. Qed.

Lemma fixedDigits_6 (n : Z) :
  fixedDigits 6 n =
  String (digitChar ((n / 100000) mod 10)) (String (digitChar ((n / 10000) mod 10))
    (fixedDigits 4 n)).
Proof. reflexivity. Qed.

Lemma digit_range (n k : Z) : 0 < k -> 0 <= (n / k) mod 10 <= 9.
Proof. intros. pose proof (Z.mod_pos_bound (n / k) 10). lia. Qed.

Ltac digits_eq :=
  repeat match goal with
  | H : digitChar _ = digitChar _ |- _ =>
      apply digitChar_inj in H; [| apply digit_range; lia | apply digit_range; lia]
  end.

(** The date part of an ISO string determines year, month and day. *)
Lemma isoDate_inj (y1 m1 d1 y2 m2 d2 : Z) :
  -999999 <= y1 <= 999999 -> -999999 <= y2 <= 999999 ->
  0 <= m1 <= 99 -> 0 <= m2 <= 99 -> 0 <= d1 <= 99 -> 0 <= d2 <= 99 ->
  yearString y1 +:+ String "-" (fixedDigits 2 m1 +:+ String "-" (fixedDigits 2 d1))
  = yearString y2 +:+ String "-" (fixedDigits 2 m2 +:+ String "-" (fixedDigits 2 d2)) ->
  (y1, m1, d1) = (y2, m2, d2).
Proof.
  intros Hy1 Hy2 Hm1 Hm2 Hd1 Hd2. unfold yearString.
  destruct ((0 <=? y1) && (y1 <=? 9999)) eqn:E1;
  destruct ((0 <=? y2) && (y2 <=? 9999)) eqn:E2;
    rewrite ?fixedDigits_6, ?fixedDigits_4, !fixedDigits_2; cbn [String.append];
    intros H; injection H; clear H; intros.
  - apply andb_true_iff in E1 as [?%Z.leb_le ?%Z.leb_le].
    apply andb_true_iff in E2 as [?%Z.leb_le ?%Z.leb_le].
    digits_eq.
    assert (y1 = y2) by (Z.div_mod_to_equations; lia).
    assert (m1 = m2) by (Z.div_mod_to_equations; lia).
    assert (d1 = d2) by (Z.div_mod_to_equations; lia).
    congruence.
  - exfalso. 
    match goal with H : digitChar ?a = (if ?b then _ else _) |- _ =>
      apply (digitChar_not_sign a b); [apply digit_range; lia | exact H] end.
  - exfalso.
    match goal with H : (if ?b then _ else _) = digitChar ?a |- _ =>
      apply (digitChar_not_sign a b); [apply digit_range; lia | symmetry; exact H] end.
  - assert (Hs : (y1 <? 0) = (y2 <? 0)).
    { match goal with H : (if ?a then _ else _) = (if ?b then _ else _) |- _ =>
        destruct a, b; first [reflexivity | discriminate H] end. }
    digits_eq.
    assert (Z.abs y1 = Z.abs y2) by (Z.div_mod_to_equations; lia).
    assert (y1 = y2).
    { destruct (y1 <? 0) eqn:A; symmetry in Hs;
        [apply Z.ltb_lt in A, Hs | apply Z.ltb_ge in A, Hs]; lia. }
    assert (m1 = m2) by (Z.div_mod_to_equations; lia).
    assert (d1 = d2) by (Z.div_mod_to_equations; lia).
    congruence.
Qed.

(** Two valid time values have the same ISO date exactly when they fall on
    the same UTC day. *)
Lemma toISODate_inj (t1 t2 : Z) :
  validTime t1 -> validTime t2 ->
  toISODate t1 = toISODate t2 -> Day t1 = Day t2.
Proof.
  intros H1 H2. unfold toISODate.
  pose proof (civilFromDays_year t1 H1) as Hy1.
  pose proof (civilFromDays_year t2 H2) as Hy2.
  pose proof (civilFromDays_range (Day t1)) as Hr1.
  pose proof (civilFromDays_range (Day t2)) as Hr2.
  destruct (civilFromDays (Day t1)) as [[y1 m1] d1] eqn:E1.
  destruct (civilFromDays (Day t2)) as [[y2 m2] d2] eqn:E2.
  intros H. apply isoDate_inj in H; try lia.
  apply civilFromDays_inj. congruence.
Qed.

Lemma toISODate_Day (t1 t2 : Z) : Day t1 = Day t2 -> toISODate t1 = toISODate t2.
Proof. unfold toISODate. intros ->. reflexivity. Qed.

(** ** The calendar reconciler *)

(** *** The date range *)

Lemma rangeStep_bothSome st r : bothSome (rangeStep st r).
Proof.
  destruct st as [[mn|] [mx|]]; unfold rangeStep; simpl;
    repeat match goal with |- context [if ?b then _ else _] => destruct b end;
    eexists _, _; reflexivity.
Qed.

Lemma foldl_rangeStep_bothSome rs st :
  bothSome st -> bothSome (foldl rangeStep st rs).
Proof.
  revert st. induction rs as [|r rs IH]; intros st H; [exact H|].
  simpl. apply IH, rangeStep_bothSome.
Qed.

Lemma foldl_rangeStep_cases rs st :
  (rs = [] /\ foldl rangeStep st rs = st) \/ bothSome (foldl rangeStep st rs).
Proof.
  destruct rs as [|r rs]; [left; split; reflexivity|].
  right. simpl. apply foldl_rangeStep_bothSome, rangeStep_bothSome.
Qed.

Lemma foldl_employees_bothSome es st :
  bothSome st ->
  bothSome (foldl (fun st e => foldl rangeStep st (records e)) st es).
Proof.
  revert st. induction es as [|e es IH]; intros st H; [exact H|].
  simpl. apply IH, foldl_rangeStep_bothSome, H.
Qed.

Lemma foldl_employees_cases es st :
  (foldl (fun st e => foldl rangeStep st (records e)) st es = st
   /\ Forall (fun e => records e = []) es)
  \/ bothSome (foldl (fun st e => foldl rangeStep st (records e)) st es).
Proof.
  revert st. induction es as [|e es IH]; intros st.
  - left. split; [reflexivity | constructor].
  - simpl. destruct (foldl_rangeStep_cases (records e) st) as [[He Hst]|Hb].
    + rewrite Hst. destruct (IH st) as [[H1 H2]|H].
      * left. split; [exact H1 | constructor; assumption].
      * right. exact H.
    + right. apply foldl_employees_bothSome, Hb.
Qed.

(** Either no employee has a record and both bounds are [null], or both
    bounds are dates. *)
Lemma dateRange_cases employees :
  (dateRange employees = (None, None)
   /\ Forall (fun e => records e = []) employees)
  \/ bothSome (dateRange employees).
Proof. apply foldl_employees_cases. Qed.

Lemma dateRange_flat employees :
  dateRange employees = foldl rangeStep (None, None) (allRecords employees).
Proof.
  unfold dateRange, allRecords. generalize (@None Z, @None Z) as st.
  induction employees as [|e es IH]; intros st; [reflexivity|].
  cbn [fmap list_fmap concat foldl]. rewrite foldl_app. apply IH.
Qed.

Lemma foldl_rangeStep_range rs1 rs2 mn mx :
  isRange rs1 mn mx ->
  exists mn' mx',
    foldl rangeStep (Some mn, Some mx) rs2 = (Some mn', Some mx')
    /\ isRange (rs1 ++ rs2) mn' mx'.
Proof.
  revert rs1 mn mx. induction rs2 as [|r rs2 IH]; intros rs1 mn mx H.
  - exists mn, mx. rewrite app_nil_r. split; [reflexivity | exact H].
  - cbn [foldl]. unfold rangeStep at 2. cbn [fst snd].
    destruct H as ((r1 & Hr1 & E1) & (r2 & Hr2 & E2) & Hall).
    assert (Hstep : isRange (rs1 ++ [r])
              (if date r <? mn then date r else mn)
              (if mx <? date r then date r else mx)).
    { split; [|split].
      - destruct (date r <? mn).
        + exists r. split; [|reflexivity].
          apply elem_of_app; right; apply list_elem_of_singleton; reflexivity.
        + exists r1. split; [apply elem_of_app; left; exact Hr1 | exact E1].
      - destruct (mx <? date r).
        + exists r. split; [|reflexivity].
          apply elem_of_app; right; apply list_elem_of_singleton; reflexivity.
        + exists r2. split; [apply elem_of_app; left; exact Hr2 | exact E2].
      - apply Forall_app. split.
        + eapply Forall_impl; [exact Hall|]. intros x Hx. simpl in Hx.
          destruct (date r <? mn) eqn:A; destruct (mx <? date r) eqn:B;
            try apply Z.ltb_lt in A; try apply Z.ltb_lt in B; lia.
        + constructor; [|constructor].
          destruct (date r <? mn) eqn:A; destruct (mx <? date r) eqn:B;
            try apply Z.ltb_lt in A; try apply Z.ltb_lt in B;
            try apply Z.ltb_ge in A; try apply Z.ltb_ge in B; lia. }
    destruct (date r <? mn), (mx <? date r);
      (destruct (IH (rs1 ++ [r])%list _ _ Hstep) as (mn' & mx' & Hf & Hr);
       exists mn', mx'; rewrite <- app_assoc in Hr; split; [exact Hf | exact Hr]).
Qed.

(** The first loop of [analyzeData] finds the global minimum and maximum
    over all records of all employees. *)
Lemma dateRange_isRange employees mn mx :
  dateRange employees = (Some mn, Some mx) ->
  isRange (allRecords employees) mn mx.
Proof.
  rewrite dateRange_flat. destruct (allRecords employees) as [|r rs]; [discriminate|].
  cbn [foldl]. unfold rangeStep at 2. cbn [fst snd]. intros H.
  assert (H0 : isRange [r] (date r) (date r)).
  { split; [|split].
    - exists r. split; [apply list_elem_of_singleton|]; reflexivity.
    - exists r. split; [apply list_elem_of_singleton|]; reflexivity.
    - constructor; [lia | constructor]. }
  destruct (foldl_rangeStep_range [r] rs _ _ H0) as (mn' & mx' & Hf & Hr).
  rewrite Hf in H. injection H as -> ->. exact Hr.
Qed.

Lemma isRange_unique rs a b a' b' :
  isRange rs a b -> isRange rs a' b' -> a = a' /\ b = b'.
Proof.
  intros ((r1 & H1 & E1) & (r2 & H2 & E2) & Hall)
         ((r1' & H1' & E1') & (r2' & H2' & E2') & Hall').
  rewrite Forall_forall in Hall, Hall'.
  pose proof (Hall r1' H1'). pose proof (Hall r2' H2').
  pose proof (Hall' r1 H1). pose proof (Hall' r2 H2). lia.
Qed.

Lemma isRange_valid rs mn mx :
  Forall (fun r => validTime (date r)) rs -> isRange rs mn mx ->
  validTime mn /\ validTime mx /\ mn <= mx.
Proof.
  intros Hv ((r1 & H1 & E1) & (r2 & H2 & E2) & Hall).
  rewrite Forall_forall in Hv, Hall.
  pose proof (Hv r1 H1). pose proof (Hv r2 H2). pose proof (Hall r1 H1).
  subst mn mx. unfold validTime in *. lia.
Qed.

Lemma allRecords_Forall (P : AttendanceRecord -> Prop) employees :
  Forall P (allRecords employees) <-> Forall (fun e => Forall P (records e)) employees.
Proof.
  unfold allRecords. induction employees as [|e es IH]; cbn.
  - split; constructor.
  - rewrite Forall_app, Forall_cons, IH. reflexivity.
Qed.

Lemma allRecords_elem r employees :
  r ∈ allRecords employees <-> exists e, e ∈ employees /\ r ∈ records e.
Proof.
  unfold allRecords. induction employees as [|e es IH]; cbn.
  - split; [intros H; inversion H | intros (e & He & _); inversion He].
  - rewrite elem_of_app, IH. split.
    + intros [H|(e' & He' & Hr)].
      * exists e. split; [apply list_elem_of_here | exact H].
      * exists e'. split; [apply list_elem_of_further, He' | exact Hr].
    + intros (e' & He' & Hr). apply elem_of_cons in He' as [->|He'].
      * left. exact Hr.
      * right. exists e'. split; assumption.
Qed.

(** *** The sort *)

Lemma insertByDate_Forall (P : AttendanceRecord -> Prop) r l :
  P r -> Forall P l -> Forall P (insertByDate r l).
Proof.
  intros Hr. induction 1 as [|x l Hx Hl IH]; simpl.
  - repeat constructor. exact Hr.
  - destruct (date r <=? date x); repeat constructor; assumption.
Qed.

Lemma sortByDate_Forall (P : AttendanceRecord -> Prop) l :
  Forall P l -> Forall P (sortByDate l).
Proof.
  induction 1 as [|x l Hx Hl IH]; [constructor|].
  simpl. apply insertByDate_Forall; assumption.
Qed.

Lemma sortByDate_sorted l : Sorted byDate l -> sortByDate l = l.
Proof.
  induction 1 as [|x l Hl IH Hhd]; [reflexivity|].
  cbn [sortByDate foldr]. fold (sortByDate l). rewrite IH.
  destruct Hhd as [|y l' Hxy]; [reflexivity|].
  cbn [insertByDate]. unfold byDate in Hxy.
  replace (date x <=? date y) with true by (symmetry; apply Z.leb_le; exact Hxy).
  reflexivity.
Qed.

(** *** The walk *)

Section Walk.

Variable WEEKEND_DAYS : list Z.
Variable FULL_DAY_HOURS HALF_DAY_HOURS : Number.
Variable tzOffset : Z.
Variable nextDay : Z -> Z.
Variable holidayDates : gset string.
Variable employeeName : string.
Variable recordsMap : gmap string AttendanceRecord.
Variable maxDate : Z.

Let classify := getStatus WEEKEND_DAYS FULL_DAY_HOURS HALF_DAY_HOURS tzOffset.
Let loop :=
  walk WEEKEND_DAYS FULL_DAY_HOURS HALF_DAY_HOURS tzOffset nextDay holidayDates
       employeeName recordsMap maxDate.

(** Every record the loop pushes carries the status the classifier gives it. *)
Lemma walk_classified fuel currentDate :
  Forall (fun r => status r = classify r holidayDates) (loop fuel currentDate).
Proof.
  revert currentDate. induction fuel as [|fuel IH]; intros cur; [constructor|].
  unfold loop. simpl. destruct (cur <=? maxDate); [|constructor].
  constructor; [|apply IH].
  destruct (recordsMap !! toISODate cur); reflexivity.
Qed.

Lemma walk_not_UNKNOWN fuel currentDate :
  Forall (fun r => status r <> UNKNOWN) (loop fuel currentDate).
Proof.
  eapply Forall_impl; [apply walk_classified|].
  intros r Hr. simpl in Hr. rewrite Hr. apply getStatus_not_UNKNOWN.
Qed.

End Walk.

(** C9: after a reconciliation pass no record of the output carries status
    UNKNOWN: the classifier never returns UNKNOWN, every record the pass
    emits (carried over or synthesized) gets the classifier's status, and a
    pass that returns its input unchanged returns no record at all.  So the
    hypothesis of the summary invariant holds of every reconciled employee. *)
Theorem analyzeData_no_UNKNOWN
    WEEKEND_DAYS FULL_DAY_HOURS HALF_DAY_HOURS tzOffset nextDay employees holidayList :
  let classify := getStatus WEEKEND_DAYS FULL_DAY_HOURS HALF_DAY_HOURS tzOffset in
  let result :=
    analyzeData WEEKEND_DAYS FULL_DAY_HOURS HALF_DAY_HOURS tzOffset nextDay
      employees holidayList in
  (forall record holidayDates, classify record holidayDates <> UNKNOWN)
  /\ Forall (fun e =>
        Forall (fun r =>
          status r = classify r (list_to_set (Holiday.date <$> holidayList)))
          (records e)) result
  /\ Forall (fun e => Forall (fun r => status r <> UNKNOWN) (records e)) result
  /\ Forall (fun e =>
         let c := summaryCounters (records e) in
         present c + absent c + halfDays c + shortHours c + holidays c + weekends c
         = Z.of_nat (length (records e))) result.
Proof.
  intros classify result.
  assert (Hc : Forall (fun e =>
        Forall (fun r =>
          status r = classify r (list_to_set (Holiday.date <$> holidayList)))
          (records e)) result).
  { subst result. unfold analyzeData. destruct employees as [|e es]; [constructor|].
    destruct (dateRange_cases (e :: es)) as [[Hr Hnone]|(mn & mx & Hr)];
      rewrite Hr.
    - eapply Forall_impl; [exact Hnone|].
      intros e' He'. simpl in He'. rewrite He'. constructor.
    - apply Forall_fmap, Forall_forall. intros e' _. simpl.
      apply sortByDate_Forall, walk_classified. }
  assert (H : Forall (fun e => Forall (fun r => status r <> UNKNOWN) (records e))
                result).
  { eapply Forall_impl; [exact Hc|]. intros e He.
    eapply Forall_impl; [exact He|]. intros r Hr. simpl in Hr. rewrite Hr.
    apply getStatus_not_UNKNOWN. }
  split; [intros; apply getStatus_not_UNKNOWN|].
  split; [exact Hc|].
  split; [exact H|].
  eapply Forall_impl; [exact H|].
  intros e He. cbv zeta. rewrite summaryCounters_sum.
  apply occurrences_partition, He.
Qed.

Lemma walkFuel_step (currentDate maxDate : Z) :
  currentDate <= maxDate ->
  walkFuel currentDate maxDate = S (walkFuel (currentDate + msPerDay) maxDate).
Proof.
  intros H. unfold walkFuel, msPerDay.
  replace (maxDate - (currentDate + 86400000))
    with (maxDate - currentDate + (-1) * 86400000) by lia.
  rewrite Z.div_add by lia.
  assert (0 <= (maxDate - currentDate) / 86400000) by (apply Z.div_pos; lia).
  rewrite <- Z2Nat.inj_succ by lia. f_equal. lia.
Qed.

Lemma walkFuel_done (currentDate maxDate : Z) :
  maxDate < currentDate -> walkFuel currentDate maxDate = O.
Proof.
  intros H. unfold walkFuel, msPerDay.
  assert ((maxDate - currentDate) / 86400000 < 0) by (apply Z.div_lt_upper_bound; lia).
  lia.
Qed.

Lemma length_walkDates n c : length (walkDates n c) = n.
Proof. revert c. induction n as [|n IH]; intros c; simpl; [|rewrite IH]; reflexivity. Qed.

Lemma walkDates_lookup n c (k : nat) :
  (k < n)%nat -> walkDates n c !! k = Some (c + Z.of_nat k * msPerDay).
Proof.
  revert c k. induction n as [|n IH]; intros c k Hk; [lia|].
  destruct k as [|k]; simpl.
  - f_equal. lia.
  - rewrite IH by lia. f_equal. lia.
Qed.

Lemma Day_add (c : Z) (k : Z) : Day (c + k * msPerDay) = Day c + k.
Proof. unfold Day, msPerDay. rewrite Z.div_add by lia. reflexivity. Qed.

Lemma walkDates_Day n c : Day <$> walkDates n c = seqZ (Day c) (Z.of_nat n).
Proof.
  revert c. induction n as [|n IH]; intros c; [reflexivity|].
  cbn [walkDates fmap list_fmap]. rewrite IH.
  replace (c + msPerDay) with (c + 1 * msPerDay) by lia. rewrite Day_add.
  rewrite Nat2Z.inj_succ, (seqZ_cons (Day c)) by lia. f_equal. f_equal; lia.
Qed.

Lemma walkDates_bounds (mn mx : Z) c :
  c ∈ walkDates (walkFuel mn mx) mn -> mn <= c <= mx.
Proof.
  remember (walkFuel mn mx) as n eqn:En. revert mn En.
  induction n as [|n IH]; intros mn En Hc; [inversion Hc|].
  destruct (Z_le_gt_dec mn mx) as [Hle|Hgt].
  2:{ rewrite walkFuel_done in En by lia. discriminate. }
  rewrite walkFuel_step in En by exact Hle. injection En as En.
  cbn [walkDates] in Hc. apply elem_of_cons in Hc as [->|Hc]; [lia|].
  specialize (IH _ En Hc). unfold msPerDay in IH. lia.
Qed.

Lemma Day_lt (a b : Z) : Day a < Day b -> a < b.
Proof.
  unfold Day, msPerDay. intros H.
  destruct (Z_lt_ge_dec a b) as [Hlt|Hge]; [exact Hlt|].
  assert (b / 86400000 <= a / 86400000) by (apply Z.div_le_mono; lia). lia.
Qed.

Lemma validTime_between (mn mx c : Z) :
  validTime mn -> validTime mx -> mn <= c <= mx -> validTime c.
Proof. unfold validTime. lia. Qed.

Lemma walkDates_valid (mn mx : Z) :
  validTime mn -> validTime mx -> Forall validTime (walkDates (walkFuel mn mx) mn).
Proof.
  intros Hmn Hmx. apply Forall_forall. intros c Hc.
  apply (validTime_between mn mx); [assumption..|].
  apply walkDates_bounds, Hc.
Qed.

(** The number of days the walk visits. *)
Lemma walkFuel_count (mn mx : Z) :
  mn <= mx -> Z.of_nat (walkFuel mn mx) = (mx - mn) / msPerDay + 1.
Proof.
  intros H. unfold walkFuel.
  assert (0 <= (mx - mn) / msPerDay) by (apply Z.div_pos; unfold msPerDay; lia).
  lia.
Qed.

Lemma span_days (mn mx : Z) :
  (mn mod msPerDay <= mx mod msPerDay ->
     (mx - mn) / msPerDay + 1 = Day mx - Day mn + 1)
  /\ (mx mod msPerDay < mn mod msPerDay ->
     (mx - mn) / msPerDay + 1 = Day mx - Day mn).
Proof. unfold Day, msPerDay. split; intros H; Z.div_mod_to_equations; lia. Qed.

Section WalkSpec.

Variable WEEKEND_DAYS : list Z.
Variable FULL_DAY_HOURS HALF_DAY_HOURS : Number.
Variable tzOffset : Z.
Variable nextDay : Z -> Z.
Variable holidayDates : gset string.
Variable employeeName : string.
Variable recordsMap : gmap string AttendanceRecord.
Variable maxDate : Z.

Let loop :=
  walk WEEKEND_DAYS FULL_DAY_HOURS HALF_DAY_HOURS tzOffset nextDay holidayDates
       employeeName recordsMap maxDate.

Let emit :=
  emitted WEEKEND_DAYS FULL_DAY_HOURS HALF_DAY_HOURS tzOffset holidayDates
          employeeName recordsMap.

Lemma walk_past (fuel : nat) (currentDate : Z) :
  maxDate < currentDate -> loop fuel currentDate = [].
Proof.
  intros Hgt. destruct fuel as [|fuel]; [reflexivity|]. unfold loop. cbn [walk].
  replace (currentDate <=? maxDate) with false by (symmetry; apply Z.leb_gt; lia).
  reflexivity.
Qed.

Lemma walkBound_step (c c' : Z) :
  c <= maxDate -> c + msPerHour <= c' ->
  (S (walkBound c' maxDate) <= walkBound c maxDate)%nat.
Proof.
  intros Hle Hstep. unfold walkBound, msPerHour in *.
  assert (0 <= (maxDate - c) / 3600000) by (apply Z.div_pos; lia).
  assert ((maxDate - c') / 3600000 + 1 <= (maxDate - c) / 3600000).
  { replace (maxDate - c) with (maxDate - c - 3600000 + 1 * 3600000) by lia.
    rewrite Z.div_add by lia.
    assert ((maxDate - c') / 3600000 <= (maxDate - c - 3600000) / 3600000)
      by (apply Z.div_le_mono; lia).
    lia. }
  lia.
Qed.

(** On a host whose step advances an hour at least, the loop has ended
    within [walkBound] iterations: it visits [n] dates, none past
    [maxDate], and the date after them is past [maxDate]. *)
Lemma walk_visits (fuel : nat) (currentDate : Z) :
  (forall t, t + msPerHour <= nextDay t) ->
  (walkBound currentDate maxDate <= fuel)%nat ->
  exists n : nat,
    (n <= walkBound currentDate maxDate)%nat
    /\ loop fuel currentDate = emit <$> visits nextDay n currentDate
    /\ Forall (fun c => c <= maxDate) (visits nextDay n currentDate)
    /\ maxDate < Nat.iter n nextDay currentDate.
Proof.
  intros Hstep. revert currentDate.
  induction fuel as [|fuel IH]; intros c Hf.
  - destruct (Z_le_gt_dec c maxDate) as [Hle|Hgt].
    + pose proof (walkBound_step c (nextDay c) Hle (Hstep c)). lia.
    + exists O. repeat split; [lia | constructor | simpl; lia].
  - destruct (Z_le_gt_dec c maxDate) as [Hle|Hgt].
    + pose proof (walkBound_step c (nextDay c) Hle (Hstep c)) as Hb.
      destruct (IH (nextDay c)) as (n & Hn & Hw & Hall & Hend); [lia|].
      exists (S n). split; [lia|]. split; [|split].
      * unfold loop. cbn [walk visits fmap list_fmap].
        replace (c <=? maxDate) with true by (symmetry; apply Z.leb_le; exact Hle).
        f_equal. exact Hw.
      * cbn [visits]. constructor; assumption.
      * rewrite Nat.iter_succ_r. exact Hend.
    + exists O. split; [lia|]. split; [apply walk_past; lia|].
      split; [constructor | simpl; lia].
Qed.

(** On a host with a fixed UTC offset the loop runs [walkFuel] times, once
    per date of [walkDates], and then stops on its own condition. *)
Lemma walk_walkDates (fuel : nat) (currentDate : Z) :
  (forall t, nextDay t = t + msPerDay) ->
  (walkFuel currentDate maxDate <= fuel)%nat ->
  loop fuel currentDate
  = emit <$> walkDates (walkFuel currentDate maxDate) currentDate.
Proof.
  intros Hstep. revert currentDate. induction fuel as [|fuel IH]; intros c Hf.
  - replace (walkFuel c maxDate) with O by lia. reflexivity.
  - destruct (Z_le_gt_dec c maxDate) as [Hle|Hgt].
    + rewrite walkFuel_step in * by exact Hle.
      unfold loop. cbn [walk walkDates fmap list_fmap].
      replace (c <=? maxDate) with true by (symmetry; apply Z.leb_le; exact Hle).
      f_equal. rewrite Hstep. apply IH. lia.
    + rewrite walkFuel_done by lia. apply walk_past. lia.
Qed.

End WalkSpec.

Lemma walkFuel_walkBound (currentDate maxDate : Z) :
  (walkFuel currentDate maxDate <= walkBound currentDate maxDate)%nat.
Proof.
  unfold walkFuel, walkBound, msPerDay, msPerHour.
  destruct (Z_le_gt_dec currentDate maxDate) as [Hle|Hgt].
  - assert ((maxDate - currentDate) / 86400000 <= (maxDate - currentDate) / 3600000)
      by (apply Z.div_le_compat_l; lia).
    lia.
  - assert ((maxDate - currentDate) / 86400000 < 0)
      by (apply Z.div_lt_upper_bound; lia).
    lia.
Qed.

(** X4: the loop of [analyzeData] terminates, on every host whose step to
    the next local day advances the time value by an hour at least.  Within
    [walkBound] iterations the loop has failed its condition, so a larger
    bound gives the same records: it pushes one record per date visited,
    from [currentDate] on by the host's step, for the [n] dates that are
    not past [maxDate], where the date after them is past [maxDate].  On a
    host with a fixed UTC offset (a step of 24 hours) [n] is
    [(maxDate - currentDate) / 86400000 + 1] when [currentDate] is not past
    [maxDate]. *)
Theorem walk_terminates
    WEEKEND_DAYS FULL_DAY_HOURS HALF_DAY_HOURS tzOffset nextDay holidayDates
    employeeName recordsMap maxDate (fuel : nat) (currentDate : Z) :
  (forall t, t + msPerHour <= nextDay t) ->
  (walkBound currentDate maxDate <= fuel)%nat ->
  exists n : nat,
    (n <= walkBound currentDate maxDate)%nat
    /\ walk WEEKEND_DAYS FULL_DAY_HOURS HALF_DAY_HOURS tzOffset nextDay holidayDates
         employeeName recordsMap maxDate fuel currentDate
       = emitted WEEKEND_DAYS FULL_DAY_HOURS HALF_DAY_HOURS tzOffset holidayDates
           employeeName recordsMap <$> visits nextDay n currentDate
    /\ Forall (fun c => c <= maxDate) (visits nextDay n currentDate)
    /\ maxDate < Nat.iter n nextDay currentDate
    /\ ((forall t, nextDay t = t + msPerDay) -> currentDate <= maxDate ->
        Z.of_nat n = (maxDate - currentDate) / msPerDay + 1).
Proof.
  intros Hstep Hf.
  destruct (walk_visits WEEKEND_DAYS FULL_DAY_HOURS HALF_DAY_HOURS tzOffset nextDay
              holidayDates employeeName recordsMap maxDate fuel currentDate Hstep Hf)
    as (n & Hn & Hw & Hall & Hend).
  exists n. repeat (split; [assumption|]).
  intros Hfixed Hle.
  pose proof (walkFuel_walkBound currentDate maxDate) as Hb.
  rewrite (walk_walkDates WEEKEND_DAYS FULL_DAY_HOURS HALF_DAY_HOURS tzOffset nextDay
             holidayDates employeeName recordsMap maxDate fuel currentDate Hfixed)
    in Hw by lia.
  apply (f_equal length) in Hw.
  rewrite !length_fmap, length_walkDates in Hw.
  assert (Hlen : forall k c, length (visits nextDay k c) = k)
    by (induction k as [|k IHk]; intros c; simpl; [reflexivity | by rewrite IHk]).
  rewrite Hlen in Hw. rewrite <- Hw. apply walkFuel_count, Hle.
Qed.

Lemma walk_terminates_witness :
  exists n : nat,
    (n <= walkBound jan1 (jan1 + 2 * msPerDay))%nat
    /\ walk defaultWeekend 8 4 0 dayLater ∅ "A" ∅ (jan1 + 2 * msPerDay) 100 jan1
       = emitted defaultWeekend 8 4 0 ∅ "A" ∅ <$> visits dayLater n jan1
    /\ Forall (fun c => c <= jan1 + 2 * msPerDay) (visits dayLater n jan1)
    /\ jan1 + 2 * msPerDay < Nat.iter n dayLater jan1
    /\ ((forall t, dayLater t = t + msPerDay) -> jan1 <= jan1 + 2 * msPerDay ->
        Z.of_nat n = (jan1 + 2 * msPerDay - jan1) / msPerDay + 1).
Proof.
  apply (walk_terminates defaultWeekend 8 4 0 dayLater ∅ "A" ∅
           (jan1 + 2 * msPerDay) 100 jan1).
  - intros t. unfold dayLater, msPerDay, msPerHour. lia.
  - vm_compute. lia.
Defined.

(** *** The per-employee map *)

Lemma set_date_same (r : AttendanceRecord) : set_date r (date r) = r.
Proof. destruct r; reflexivity. Qed.

Lemma recordsMapOf_snoc rs x :
  recordsMapOf (rs ++ [x]) = <[toISODate (date x) := x]> (recordsMapOf rs).
Proof. unfold recordsMapOf. rewrite foldl_app. simpl. rewrite set_date_same. reflexivity. Qed.

(** A record found under a key is a record of the employee, of that day. *)
Lemma recordsMapOf_Some rs key r :
  recordsMapOf rs !! key = Some r -> r ∈ rs /\ toISODate (date r) = key.
Proof.
  induction rs as [|x rs IH] using rev_ind; [intros H; discriminate H|].
  rewrite recordsMapOf_snoc. intros H.
  destruct (decide (toISODate (date x) = key)) as [E|E].
  - subst key. rewrite lookup_insert_eq in H. injection H as <-.
    split; [apply elem_of_app; right; apply list_elem_of_singleton|]; reflexivity.
  - rewrite lookup_insert_ne in H by exact E.
    destruct (IH H) as [Hin Hk]. split; [apply elem_of_app; left; exact Hin | exact Hk].
Qed.

(** With one record per day, every record is found under its day. *)
Lemma recordsMapOf_lookup rs r :
  NoDup ((fun r => toISODate (date r)) <$> rs) -> r ∈ rs ->
  recordsMapOf rs !! toISODate (date r) = Some r.
Proof.
  induction rs as [|x rs IH] using rev_ind; [intros _ H; inversion H|].
  rewrite fmap_app, recordsMapOf_snoc. intros Hnd Hin.
  apply NoDup_app in Hnd as (Hnd & Hne & _).
  apply elem_of_app in Hin as [Hin|Hin].
  - rewrite lookup_insert_ne; [apply IH; assumption|].
    intros E. apply (Hne (toISODate (date r))).
    + apply list_elem_of_fmap. exists r. split; [reflexivity | exact Hin].
    + rewrite <- E. apply list_elem_of_singleton. reflexivity.
  - apply list_elem_of_singleton in Hin as ->. apply lookup_insert_eq.
Qed.

(** *** One record per calendar day *)

Section Reconciled.

Variable WEEKEND_DAYS : list Z.
Variable FULL_DAY_HOURS HALF_DAY_HOURS : Number.
Variable tzOffset : Z.
Variable holidayDates : gset string.
Variable employee : EmployeeData.
Variable maxDate : Z.

Hypothesis records_valid : Forall (fun r => validTime (date r)) (records employee).

Let emit :=
  emitted WEEKEND_DAYS FULL_DAY_HOURS HALF_DAY_HOURS tzOffset holidayDates
          (employeeName employee) (recordsMapOf (records employee)).

(** The pushed record is of the day the loop is at. *)
Lemma emitted_Day (c : Z) : validTime c -> Day (date (emit c)) = Day c.
Proof.
  intros Hc. unfold emit, emitted.
  destruct (recordsMapOf (records employee) !! toISODate c) as [r|] eqn:E;
    [|reflexivity].
  apply recordsMapOf_Some in E as [Hin Hk]. cbn.
  apply toISODate_inj; [|exact Hc|exact Hk].
  apply (proj1 (Forall_forall _ _) records_valid r Hin).
Qed.

Lemma emitted_days n c :
  Forall validTime (walkDates n c) ->
  (fun r => Day (date r)) <$> (emit <$> walkDates n c) = seqZ (Day c) (Z.of_nat n).
Proof.
  intros Hv. rewrite <- walkDates_Day, <- list_fmap_compose.
  apply Forall_fmap_ext_1. eapply Forall_impl; [exact Hv|].
  intros x Hx. apply emitted_Day, Hx.
Qed.

Lemma emitted_sorted n c :
  Forall validTime (walkDates n c) -> Sorted byDate (emit <$> walkDates n c).
Proof.
  revert c. induction n as [|n IH]; intros c Hv; [constructor|].
  cbn [walkDates fmap list_fmap] in *. apply Forall_cons in Hv as [Hc Hv].
  constructor; [apply IH, Hv|].
  destruct n as [|n]; [constructor|].
  cbn [walkDates fmap list_fmap] in *. apply Forall_cons in Hv as [Hc' _].
  constructor. unfold byDate. apply Z.lt_le_incl, Day_lt.
  rewrite !emitted_Day by assumption.
  replace (c + msPerDay) with (c + 1 * msPerDay) by lia. rewrite Day_add. lia.
Qed.

End Reconciled.

(** The records of a reconciled employee on a host with a fixed UTC offset:
    one per date of the walk, in the order of the walk (the sort changes
    nothing). *)
Lemma analyzeEmployee_records W F Hh tz nextDay hs mn mx e :
  (forall t, nextDay t = t + msPerDay) ->
  Forall (fun r => validTime (date r)) (records e) ->
  validTime mn -> validTime mx ->
  records (analyzeEmployee W F Hh tz nextDay hs mn mx e)
  = emitted W F Hh tz hs (employeeName e) (recordsMapOf (records e))
      <$> walkDates (walkFuel mn mx) mn.
Proof.
  intros Hstep Hv Hmn Hmx. unfold analyzeEmployee. cbn [records].
  rewrite walk_walkDates by (try exact Hstep; apply walkFuel_walkBound).
  apply sortByDate_sorted, emitted_sorted; [exact Hv|].
  apply walkDates_valid; assumption.
Qed.

(** X1: the calendar reconciler on valid dates, on a host with a fixed UTC
    offset (the step to the next local day is 24 hours): [mn] and [mx] are
    the global minimum and maximum of the observed dates; every employee of
    the input is in the output, with one record per calendar day, ascending,
    from the day of [mn] on, for [(mx - mn) / msPerDay + 1] days.  That run
    ends on the day of [mx] when the time of day of [mn] is not after that
    of [mx] (as when all dates are at midnight), and one day earlier
    otherwise. *)
Theorem analyzeData_calendar_run W F Hh tz nextDay employees holidayList mn mx :
  (forall t, nextDay t = t + msPerDay) ->
  Forall (fun r => validTime (date r)) (allRecords employees) ->
  dateRange employees = (Some mn, Some mx) ->
  let result := analyzeData W F Hh tz nextDay employees holidayList in
  isRange (allRecords employees) mn mx
  /\ employeeName <$> result = employeeName <$> employees
  /\ Forall (fun e =>
       (fun r => Day (date r)) <$> records e
       = seqZ (Day mn) ((mx - mn) / msPerDay + 1)) result
  /\ Forall (fun e => Sorted byDate (records e)) result
  /\ (mn mod msPerDay <= mx mod msPerDay ->
        (mx - mn) / msPerDay + 1 = Day mx - Day mn + 1)
  /\ (mx mod msPerDay < mn mod msPerDay ->
        (mx - mn) / msPerDay + 1 = Day mx - Day mn).
Proof.
  intros Hstep Hv Hr result.
  pose proof (dateRange_isRange employees mn mx Hr) as Hrange.
  destruct (isRange_valid _ _ _ Hv Hrange) as (Hmn & Hmx & Hle).
  apply allRecords_Forall in Hv.
  assert (E : result =
    analyzeEmployee W F Hh tz nextDay (list_to_set (Holiday.date <$> holidayList))
      mn mx <$> employees).
  { subst result. unfold analyzeData. destruct employees; [discriminate Hr|].
    rewrite Hr. reflexivity. }
  split; [exact Hrange|]. rewrite E.
  split; [|split; [|split; [|apply span_days]]].
  - rewrite <- list_fmap_compose. apply list_fmap_ext. intros i e _. reflexivity.
  - apply Forall_fmap. eapply Forall_impl; [exact Hv|]. intros e He.
    unfold compose. cbv beta in *.
    rewrite analyzeEmployee_records by assumption.
    rewrite emitted_days by (try assumption; apply walkDates_valid; assumption).
    rewrite walkFuel_count by exact Hle. reflexivity.
  - apply Forall_fmap. eapply Forall_impl; [exact Hv|]. intros e He.
    unfold compose. cbv beta in *.
    rewrite analyzeEmployee_records by assumption.
    apply emitted_sorted; [exact He|]. apply walkDates_valid; assumption.
Qed.

Lemma analyzeData_calendar_run_witness :
  Forall (fun e => (fun r => Day (date r)) <$> records e = seqZ (Day jan1) 3)
    (analyzeData defaultWeekend 8 4 0 dayLater atMidnight []).
Proof.
  assert (Hv : Forall (fun r => validTime (date r)) (allRecords atMidnight)).
  { unfold allRecords, atMidnight. cbn [fmap list_fmap concat records app].
    repeat first [apply List.Forall_cons | apply List.Forall_nil];
      unfold validTime, observed, jan1, msPerDay; cbn [date]; lia. }
  exact (proj1 (proj2 (proj2
    (analyzeData_calendar_run defaultWeekend 8 4 0 dayLater atMidnight []
       jan1 (jan1 + 2 * msPerDay) (fun t => eq_refl) Hv eq_refl)))).
Defined.

(** *** Dates that share one time of day *)

Lemma same_day_same_time (a b : Z) :
  Day a = Day b -> a mod msPerDay = b mod msPerDay -> a = b.
Proof. unfold Day, msPerDay. intros. Z.div_mod_to_equations. lia. Qed.

Lemma walkDates_mod n c x :
  x ∈ walkDates n c -> x mod msPerDay = c mod msPerDay.
Proof.
  revert c. induction n as [|n IH]; intros c Hx; [inversion Hx|].
  cbn [walkDates] in Hx. apply elem_of_cons in Hx as [->|Hx]; [reflexivity|].
  rewrite (IH _ Hx). replace (c + msPerDay) with (c + 1 * msPerDay) by lia.
  apply Z.mod_add. unfold msPerDay. lia.
Qed.

Lemma walkDates_NoDup n c : NoDup (walkDates n c).
Proof.
  apply (NoDup_fmap_1 Day). rewrite walkDates_Day. apply NoDup_seqZ.
Qed.

Lemma walkDates_last (mn mx : Z) :
  mn <= mx -> mn mod msPerDay = mx mod msPerDay ->
  mx ∈ walkDates (walkFuel mn mx) mn.
Proof.
  intros Hle Hmod.
  pose proof (walkFuel_count mn mx Hle) as Hn.
  assert (Hq : 0 <= (mx - mn) / msPerDay) by (apply Z.div_pos; unfold msPerDay; lia).
  apply list_elem_of_lookup. exists (Z.to_nat ((mx - mn) / msPerDay)).
  rewrite walkDates_lookup by lia. f_equal.
  rewrite Z2Nat.id by exact Hq.
  unfold msPerDay in *. Z.div_mod_to_equations. lia.
Qed.

Lemma walkDates_first (mn mx : Z) :
  mn <= mx -> mn ∈ walkDates (walkFuel mn mx) mn.
Proof.
  intros Hle. rewrite walkFuel_step by exact Hle. apply list_elem_of_here.
Qed.

Section SameTime.

Variable WEEKEND_DAYS : list Z.
Variable FULL_DAY_HOURS HALF_DAY_HOURS : Number.
Variable tzOffset : Z.
Variable nextDay : Z -> Z.
Variable holidayDates : gset string.
Variable tod mn mx : Z.

Hypothesis step_fixed : forall t, nextDay t = t + msPerDay.
Hypothesis mn_valid : validTime mn.
Hypothesis mx_valid : validTime mx.
Hypothesis mn_le_mx : mn <= mx.
Hypothesis mn_tod : mn mod msPerDay = tod.
Hypothesis mx_tod : mx mod msPerDay = tod.

Let pass :=
  analyzeEmployee WEEKEND_DAYS FULL_DAY_HOURS HALF_DAY_HOURS tzOffset nextDay
                  holidayDates mn mx.
Let emit (e : EmployeeData) :=
  emitted WEEKEND_DAYS FULL_DAY_HOURS HALF_DAY_HOURS tzOffset holidayDates
          (employeeName e) (recordsMapOf (records e)).
Let days := walkDates (walkFuel mn mx) mn.

Lemma onTime_valid rs : Forall (onTime tod) rs -> Forall (fun r => validTime (date r)) rs.
Proof. intros H. eapply Forall_impl; [exact H|]. intros r [Hr _]. exact Hr. Qed.

(** With one time of day throughout, the record pushed for a date carries
    exactly that date. *)
Lemma emitted_date e c :
  Forall (onTime tod) (records e) -> c ∈ days -> date (emit e c) = c.
Proof.
  intros He Hc.
  assert (Hv : validTime c).
  { apply (validTime_between mn mx); try assumption. apply walkDates_bounds, Hc. }
  apply same_day_same_time.
  - apply emitted_Day; [apply onTime_valid, He | exact Hv].
  - rewrite (walkDates_mod _ _ _ Hc), mn_tod.
    unfold emit, emitted.
    destruct (recordsMapOf (records e) !! toISODate c) as [r|] eqn:E.
    + apply recordsMapOf_Some in E as [Hin _]. cbn.
      apply (proj1 (Forall_forall _ _) He r Hin).
    + cbn. rewrite (walkDates_mod _ _ _ Hc). exact mn_tod.
Qed.

Lemma pass_records e :
  Forall (onTime tod) (records e) -> records (pass e) = emit e <$> days.
Proof.
  intros He. apply analyzeEmployee_records; try assumption.
  apply onTime_valid, He.
Qed.

Lemma pass_dates e :
  Forall (onTime tod) (records e) -> date <$> records (pass e) = days.
Proof.
  intros He. rewrite pass_records by exact He.
  rewrite <- list_fmap_compose. rewrite <- (list_fmap_id days) at 2.
  apply Forall_fmap_ext_1, Forall_forall. intros c Hc.
  apply emitted_date; assumption.
Qed.

Lemma pass_onTime e : Forall (onTime tod) (records e) -> Forall (onTime tod) (records (pass e)).
Proof.
  intros He. apply Forall_forall. intros r Hr.
  assert (Hd : date r ∈ days).
  { rewrite <- (pass_dates e He). apply list_elem_of_fmap. exists r. split; [reflexivity|exact Hr]. }
  split.
  - apply (validTime_between mn mx); try assumption. apply walkDates_bounds, Hd.
  - rewrite (walkDates_mod _ _ _ Hd). exact mn_tod.
Qed.

(** A second pass over a reconciled employee returns it unchanged. *)
Lemma pass_pass e : Forall (onTime tod) (records e) -> pass (pass e) = pass e.
Proof.
  intros He.
  assert (Hrec : records (pass (pass e)) = records (pass e)).
  { rewrite (pass_records (pass e)) by (apply pass_onTime, He).
    rewrite (pass_records e He).
    apply Forall_fmap_ext_1, Forall_forall. intros c Hc.
    unfold emit at 1, emitted. change (employeeName (pass e)) with (employeeName e).
    assert (Hfound : recordsMapOf (records (pass e)) !! toISODate c = Some (emit e c)).
    { rewrite <- (emitted_date e c He Hc) at 1.
      apply recordsMapOf_lookup.
      - rewrite (list_fmap_compose date toISODate), (pass_dates e He).
        apply NoDup_fmap_2_strong; [|apply walkDates_NoDup].
        intros x y Hx Hy Hxy. apply same_day_same_time.
        + apply toISODate_inj; [| |exact Hxy];
            apply (validTime_between mn mx); try assumption; apply walkDates_bounds; assumption.
        + rewrite (walkDates_mod _ _ _ Hx), (walkDates_mod _ _ _ Hy). reflexivity.
      - rewrite (pass_records e He). apply list_elem_of_fmap.
        exists c. split; [reflexivity | exact Hc]. }
    rewrite Hfound. unfold emit, emitted. reflexivity. }
  unfold pass in *. unfold analyzeEmployee in *. cbn [records employeeName] in *.
  f_equal. exact Hrec.
Qed.

End SameTime.

(** X2: idempotence on dates that share one time of day (as when every date is
    normalised to midnight), on a host with a fixed UTC offset (the step to
    the next local day is 24 hours): reconciling the output of a
    reconciliation, with the same holidays, returns that output, ids, dates
    and statuses included. *)
Theorem analyzeData_idempotent_same_time
    W F Hh tz nextDay employees holidayList tod :
  (forall t, nextDay t = t + msPerDay) ->
  Forall (onTime tod) (allRecords employees) ->
  analyzeData W F Hh tz nextDay
    (analyzeData W F Hh tz nextDay employees holidayList) holidayList
  = analyzeData W F Hh tz nextDay employees holidayList.
Proof.
  intros Hstep Hon. destruct employees as [|e0 es]; [reflexivity|].
  set (hs := list_to_set (Holiday.date <$> holidayList) : gset string).
  destruct (dateRange_cases (e0 :: es)) as [[Hr _]|(mn & mx & Hr)].
  - assert (E : analyzeData W F Hh tz nextDay (e0 :: es) holidayList = e0 :: es).
    { unfold analyzeData. rewrite Hr. reflexivity. }
    rewrite E. exact E.
  - pose proof (dateRange_isRange _ _ _ Hr) as Hrange.
    destruct (isRange_valid _ _ _ (onTime_valid tod _ Hon) Hrange) as (Hmn & Hmx & Hle).
    assert (Hmn_tod : mn mod msPerDay = tod).
    { destruct Hrange as ((r & Hin & <-) & _).
      apply (proj1 (Forall_forall _ _) Hon r Hin). }
    assert (Hmx_tod : mx mod msPerDay = tod).
    { destruct Hrange as (_ & (r & Hin & <-) & _).
      apply (proj1 (Forall_forall _ _) Hon r Hin). }
    apply allRecords_Forall in Hon.
    set (pass := analyzeEmployee W F Hh tz nextDay hs mn mx).
    assert (E : analyzeData W F Hh tz nextDay (e0 :: es) holidayList
                = pass <$> (e0 :: es)).
    { unfold analyzeData. rewrite Hr. reflexivity. }
    rewrite E.
    assert (Hdates : forall e, e ∈ e0 :: es ->
              date <$> records (pass e) = walkDates (walkFuel mn mx) mn).
    { intros e He. apply (pass_dates W F Hh tz nextDay hs tod); try assumption.
      apply (proj1 (Forall_forall _ _) Hon e He). }
    assert (Hrange' : isRange (allRecords (pass <$> (e0 :: es))) mn mx).
    { assert (Hhas : forall c, c ∈ walkDates (walkFuel mn mx) mn ->
                exists r, r ∈ allRecords (pass <$> (e0 :: es)) /\ date r = c).
      { intros c Hc. rewrite <- (Hdates e0) in Hc by apply list_elem_of_here.
        apply list_elem_of_fmap in Hc as (r & -> & Hr0). exists r. split; [|reflexivity].
        apply allRecords_elem. exists (pass e0). split; [|exact Hr0].
        apply list_elem_of_fmap. exists e0. split; [reflexivity | apply list_elem_of_here]. }
      split; [|split].
      - apply Hhas, walkDates_first, Hle.
      - apply Hhas, walkDates_last; [exact Hle | congruence].
      - apply Forall_forall. intros r Hr0.
        apply allRecords_elem in Hr0 as (e' & He' & Hr0).
        apply list_elem_of_fmap in He' as (e & -> & He).
        apply walkDates_bounds. rewrite <- (Hdates e He).
        apply list_elem_of_fmap. exists r. split; [reflexivity | exact Hr0]. }
    assert (Hr' : dateRange (pass <$> (e0 :: es)) = (Some mn, Some mx)).
    { destruct (dateRange_cases (pass <$> (e0 :: es))) as [[_ Hnone]|(a & b & Hab)].
      - exfalso. apply Forall_cons in Hnone as [Hnone _].
        pose proof (Hdates e0 (list_elem_of_here _ _)) as Hd. rewrite Hnone in Hd.
        rewrite walkFuel_step in Hd by exact Hle. discriminate Hd.
      - rewrite Hab. pose proof (dateRange_isRange _ _ _ Hab) as Hab'.
        destruct (isRange_unique _ _ _ _ _ Hab' Hrange') as [-> ->]. reflexivity. }
    assert (E' : analyzeData W F Hh tz nextDay (pass <$> (e0 :: es)) holidayList
                 = pass <$> (pass <$> (e0 :: es))).
    { unfold analyzeData. cbn [fmap list_fmap]. cbn [fmap list_fmap] in Hr'.
      rewrite Hr'. reflexivity. }
    rewrite E', <- list_fmap_compose.
    apply Forall_fmap_ext_1. eapply Forall_impl; [exact Hon|].
    intros e He. apply (pass_pass W F Hh tz nextDay hs tod); assumption.
Qed.

Lemma analyzeData_idempotent_same_time_witness :
  analyzeData defaultWeekend 8 4 0 dayLater
    (analyzeData defaultWeekend 8 4 0 dayLater atMidnight []) []
  = analyzeData defaultWeekend 8 4 0 dayLater atMidnight [].
Proof.
  apply (analyzeData_idempotent_same_time defaultWeekend 8 4 0 dayLater
           atMidnight [] 0 (fun t => eq_refl)).
  unfold allRecords, atMidnight. cbn [fmap list_fmap concat records app].
  repeat first [apply List.Forall_cons | apply List.Forall_nil];
    (split; [unfold validTime, observed, jan1, msPerDay; cbn [date]; lia
            | reflexivity]).
Defined.

(** An end-to-end example on a host at UTC: A with one record of 8 hours on Monday
    2024-01-01 and B with one record of 0 hours on Friday 2024-01-05, no
    holidays, weekend Saturday and Sunday: five records per employee, the
    days 2024-01-01 to 2024-01-05; A is PRESENT on the first day and ABSENT
    on the other four, B is ABSENT on all five; the synthesized records are
    named after the employee and the day. *)
Theorem analyzeData_monday_to_friday :
  let result := analyzeData defaultWeekend 8 4 0 dayLater mondayToFriday [] in
  let week := ["2024-01-01"; "2024-01-02"; "2024-01-03"; "2024-01-04"; "2024-01-05"] in
  calendarDays result = [week; week]
  /\ statuses result
     = [ [PRESENT; ABSENT; ABSENT; ABSENT; ABSENT];
         [ABSENT; ABSENT; ABSENT; ABSENT; ABSENT] ]
  /\ recordIds result
     = [ ["a-1"; "A-2024-01-02"; "A-2024-01-03"; "A-2024-01-04"; "A-2024-01-05"];
         ["B-2024-01-01"; "B-2024-01-02"; "B-2024-01-03"; "B-2024-01-04"; "b-5"] ].
Proof. vm_compute. repeat split; reflexivity. Qed.

(** *** Records whose dates carry a time of day *)

(** C1 (the code at a failing input, on a host at UTC, where the step to
    the next local day is 24 hours): the walk compares time values, not
    calendar days.  The employee was seen from 2024-01-01 to 2024-01-03,
    the global minimum and maximum, yet the reconciled sequence stops at
    2024-01-02: the walk's third step, 2024-01-03T18:00Z, is past the
    maximum 2024-01-03T09:00Z, and the record observed on that day is lost. *)
Theorem analyzeData_stops_before_last_day :
  dateRange [eveningThenMorning]
    = (Some (jan1 + 18 * msPerHour), Some (jan1 + 2 * msPerDay + 9 * msPerHour))
  /\ toISODate (jan1 + 18 * msPerHour) = "2024-01-01"
  /\ toISODate (jan1 + 2 * msPerDay + 9 * msPerHour) = "2024-01-03"
  /\ calendarDays (analyzeData defaultWeekend 8 4 0 dayLater [eveningThenMorning] [])
     = [["2024-01-01"; "2024-01-02"]]
  /\ recordIds (analyzeData defaultWeekend 8 4 0 dayLater [eveningThenMorning] [])
     = [["a-1"; "A-2024-01-02"]].
Proof. vm_compute. repeat split; reflexivity. Qed.

(** C3 (the code at a failing input, on a host at UTC, where the step to
    the next local day is 24 hours): a second pass over the output of the
    first is not the identity.  The first pass keeps 2024-01-01 and
    2024-01-02 (losing the record of 2024-01-03); the second pass, whose
    range now ends on 2024-01-02T05:00Z, keeps 2024-01-01 only. *)
Theorem analyzeData_second_pass_differs :
  let once := analyzeData defaultWeekend 8 4 0 dayLater [earlierEachDay] [] in
  let twice := analyzeData defaultWeekend 8 4 0 dayLater once [] in
  calendarDays once = [["2024-01-01"; "2024-01-02"]]
  /\ calendarDays twice = [["2024-01-01"]]
  /\ twice <> once.
Proof.
  cbv zeta. split; [vm_compute; reflexivity|].
  split; [vm_compute; reflexivity|].
  intros H. apply (f_equal calendarDays) in H. vm_compute in H. discriminate H.
Qed.

(** ** The report exporter *)

(** C5 (the code at a failing input): [String.prototype.replace] with a
    string pattern replaces the first occurrence only, so a label with two
    spaces keeps its second one in the file name. *)
Theorem exportFileName_keeps_second_space :
  exportFileName "John A Smith" jan1
  = "Attendance_Report_John_A Smith_2024-01-01.xlsx".
Proof. vm_compute. reflexivity. Qed.

(** [replace] changes the first occurrence of the pattern and nothing else. *)
Lemma String_replace_first (c r : ascii) (s1 s2 : string) :
  absent_from c s1 = true ->
  String_replace c r (s1 +:+ String c s2) = s1 +:+ String r s2.
Proof.
  induction s1 as [|a s1 IH]; simpl.
  - intros _. rewrite Ascii.eqb_refl. reflexivity.
  - intros H. apply andb_true_iff in H as [Ha Hs].
    apply negb_true_iff in Ha. rewrite Ha, (IH Hs). reflexivity.
Qed.

Lemma String_replace_absent (c r : ascii) (s : string) :
  absent_from c s = true -> String_replace c r s = s.
Proof.
  induction s as [|a s IH]; simpl; [reflexivity|].
  intros H. apply andb_true_iff in H as [Ha Hs].
  apply negb_true_iff in Ha. rewrite Ha, (IH Hs). reflexivity.
Qed.

(** X3: the file name of the exporter for a label [first ++ " " ++ rest]
    whose [first] part has no space is
    Attendance_Report_<first>_<rest>_<date>.xlsx, with [rest] as it is, its
    spaces included; a label without a space is used as it is. *)
Theorem exportFileName_first_space (first rest : string) (now : Z) :
  absent_from " " first = true ->
  exportFileName (first +:+ String " " rest) now
  = "Attendance_Report_" +:+ (first +:+ String "_" rest) +:+ "_" +:+
    toISODate now +:+ ".xlsx"
  /\ exportFileName first now
     = "Attendance_Report_" +:+ first +:+ "_" +:+ toISODate now +:+ ".xlsx".
Proof.
  intros H. unfold exportFileName.
  rewrite (String_replace_first _ _ _ _ H), (String_replace_absent _ _ _ H).
  split; reflexivity.
Qed.

Lemma exportFileName_first_space_witness :
  exportFileName "John A Smith" jan1
  = "Attendance_Report_John_A Smith_2024-01-01.xlsx"
  /\ exportFileName "John" jan1 = "Attendance_Report_John_2024-01-01.xlsx".
Proof.
  exact (exportFileName_first_space "John" "A Smith" jan1 eq_refl).
Defined.

(** ** Numbers as strings *)

Lemma Number_toString_samples :
  map Number_toString
    [0; 7; 59; 60; 100; 0.5; 0.1; (0.1 + 0.2); 123.456; 1e21; 1e-7; (-42);
     1180591620717411303424; NaN; Infinity]%float
  = ["0"; "7"; "59"; "60"; "100"; "0.5"; "0.1"; "0.30000000000000004";
     "123.456"; "1e+21"; "1e-7"; "-42"; "1.1805916207174113e+21"; "NaN";
     "Infinity"].
Proof. vm_compute. reflexivity. Qed.

Lemma Math_round_samples :
  map Math_round [0.5; 1.5; 2.5; (-0.5); (-1.5); 0.49999999999999994; 480.499998; 59.5]%float
  = [1; 2; 3; (-0); (-1); 0; 480; 60]%float.
Proof. vm_compute. reflexivity. Qed.

(** ** The clock formatter *)

(** C4 (counterexample): the formatter pads hours to two digits, so half an
    hour is "00:30" and not "0:30"; 8.0083333 hours are 480.499998 minutes,
    which round to 480, so the result is "08:00" and not "08:01". *)
Lemma decimalToTimeString_not_as_stated :
  decimalToTimeString 0.5 = "00:30"
  /\ decimalToTimeString 0.5 <> "0:30"
  /\ decimalToTimeString 8.0083333 = "08:00"
  /\ decimalToTimeString 8.0083333 <> "08:01".
Proof. vm_compute. repeat split; discriminate. Qed.

(** *** Exact integers as doubles *)

Lemma digits2_pos_bounds (p : positive) :
  2 ^ (Zpos (digits2_pos p) - 1) <= Zpos p < 2 ^ Zpos (digits2_pos p).
Proof.
  induction p as [p IH|p IH|]; cbn [digits2_pos]; [| |simpl; lia];
    rewrite Pos2Z.inj_succ;
    replace (Z.succ (Zpos (digits2_pos p)) - 1) with (Z.succ (Zpos (digits2_pos p) - 1)) by lia;
    rewrite !Z.pow_succ_r by lia; lia.
Qed.

Lemma digits2_pos_iter_xO (p q : positive) :
  digits2_pos (Pos.iter xO p q) = (digits2_pos p + q)%positive.
Proof.
  induction q as [|q IH] using Pos.peano_ind.
  - simpl. lia.
  - rewrite Pos.iter_succ. cbn [digits2_pos]. rewrite IH. lia.
Qed.

Lemma Zpos_iter_xO (p q : positive) :
  Zpos (Pos.iter xO p q) = Zpos p * 2 ^ Zpos q.
Proof.
  induction q as [|q IH] using Pos.peano_ind.
  - simpl. lia.
  - rewrite Pos.iter_succ, Pos2Z.inj_succ, Z.pow_succ_r by lia.
    rewrite Pos2Z.inj_xO, IH. lia.
Qed.

(** Rounding a 53-bit mantissa at an exponent in range changes nothing. *)
Lemma binary_round_aux_canonical (sx : bool) (mz : positive) (ez : Z) :
  Zpos (digits2_pos mz) = 53 -> -1074 <= ez <= 971 ->
  binary_round_aux prec emax sx (Zpos mz) ez loc_Exact = S754_finite sx mz ez.
Proof.
  intros Hd He.
  assert (Hf : fexp prec emax (Zpos (digits2_pos mz) + ez) - ez = 0).
  { unfold fexp, emin, prec, emax. rewrite Hd. lia. }
  unfold binary_round_aux, shr_fexp. cbn [Zdigits2 shr_record_of_loc].
  rewrite Hf. cbn [shr]. cbn [shr_m loc_of_shr_record round_nearest_even Zdigits2 shr_record_of_loc].
  rewrite Hf. cbn [shr shr_m].
  replace (ez <=? emax - prec) with true; [reflexivity|].
  symmetry. apply Z.leb_le. unfold emax, prec. lia.
Qed.

Lemma binary_normalize_small (p : positive) :
  Zpos p < 2 ^ 53 ->
  exists mz ez,
    binary_normalize prec emax (Zpos p) 0 false = S754_finite false mz ez
    /\ Zpos (digits2_pos mz) = 53
    /\ -52 <= ez <= 0
    /\ Zpos mz = Zpos p * 2 ^ (- ez).
Proof.
  intros Hp.
  pose proof (digits2_pos_bounds p) as Hb.
  set (d := Zpos (digits2_pos p)) in *.
  assert (Hd : 1 <= d <= 53).
  { split; [subst d; lia|].
    destruct (Z_le_gt_dec d 53) as [H|H]; [exact H|].
    assert (2 ^ 53 <= 2 ^ (d - 1)) by (apply Z.pow_le_mono_r; lia). lia. }
  cbn [binary_normalize]. unfold binary_round.
  assert (Hf : fexp prec emax (Zpos (digits2_pos p) + 0) = d - 53).
  { unfold fexp, emin, prec, emax. fold d. lia. }
  rewrite Hf. unfold shl_align.
  destruct (d - 53 - 0) as [|q|q] eqn:E; try lia.
  - exists p, 0.
    split. { replace (d - 53) with 0 by lia.
             apply binary_round_aux_canonical; [fold d|]; lia. }
    split. { fold d. lia. }
    split; lia.
  - exists (Pos.iter xO p q), (d - 53).
    assert (Hq : Zpos q = 53 - d) by lia.
    assert (Hdig : Zpos (digits2_pos (Pos.iter xO p q)) = 53).
    { rewrite digits2_pos_iter_xO, Pos2Z.inj_add. fold d. lia. }
    split. { apply binary_round_aux_canonical; [exact Hdig | lia]. }
    split. { exact Hdig. }
    split. { lia. }
    rewrite Zpos_iter_xO. f_equal. f_equal. lia.
Qed.

Lemma Prim2SF_Number_ofZ (r : Z) :
  0 < r < 2 ^ 53 ->
  exists mz ez,
    Prim2SF (Number_ofZ r) = S754_finite false mz ez
    /\ -52 <= ez <= 0
    /\ Zpos mz = r * 2 ^ (- ez).
Proof.
  intros [Hr0 Hr]. destruct r as [|p|p]; try lia.
  destruct (binary_normalize_small p Hr) as (mz & ez & Hn & Hd & He & Hv).
  exists mz, ez. split; [|split; assumption].
  unfold Number_ofZ. rewrite Hn. apply Prim2SF_SF2Prim.
  unfold SpecFloat.valid_binary, bounded, canonical_mantissa, fexp, emin, prec, emax.
  rewrite Hd. apply andb_true_iff. split; [apply Z.eqb_eq | apply Z.leb_le]; lia.
Qed.

Lemma Prim2SF_sixty : Prim2SF 60%float = S754_finite false 8444249301319680 (-47).
Proof. reflexivity. Qed.

Lemma Number_rem_sixty (n : Number) (m : positive) (e z : Z) :
  Prim2SF n = S754_finite false m e ->
  -52 <= e ->
  Zpos m * 2 ^ (e + Z.max 47 (- e)) = z * 2 ^ Z.max 47 (- e) ->
  Number_rem n 60 = remainder60 (z mod 60) (Z.max 47 (- e)).
Proof.
  intros Hn He Hz. unfold Number_rem. rewrite Hn, Prim2SF_sixty. cbv zeta.
  set (k := Z.max 47 (- e)) in *.
  assert (Hk : 47 <= k <= 52) by lia.
  replace (Z.min e (-47)) with (- k) by lia.
  replace (e - - k) with (e + k) by lia.
  replace (-47 - - k) with (k - 47) by lia.
  rewrite Hz.
  replace (8444249301319680 * 2 ^ (k - 47)) with (60 * 2 ^ k).
  2:{ replace k with (47 + (k - 47)) at 1 by lia.
      rewrite Z.pow_add_r, Z.mul_assoc by lia. reflexivity. }
  rewrite Z.mul_mod_distr_r by (try apply Z.pow_nonzero; lia).
  unfold remainder60. cbn [cond_Zopp]. reflexivity.
Qed.

Lemma remainder60_rendering_all :
  forallb (fun k => forallb (fun v => minutesRendering v k) (seqZ 0 60)) (seqZ 47 6)
  = true.
Proof. vm_compute. reflexivity. Qed.

Lemma remainder60_rendering (v k : Z) :
  0 <= v <= 59 -> 47 <= k <= 52 ->
  padStart 2 "0" (Number_toString (remainder60 v k)) = fixedDigits 2 v.
Proof.
  intros Hv Hk.
  pose proof remainder60_rendering_all as H.
  rewrite forallb_forall in H.
  specialize (H k). rewrite forallb_forall in H.
  apply String.eqb_eq. apply H.
  - apply list_elem_of_In, elem_of_seqZ. lia.
  - apply list_elem_of_In, elem_of_seqZ. lia.
Qed.

Lemma binary_round_aux_sign (sx : bool) (mx ex : Z) (lx : location) :
  match binary_round_aux prec emax sx mx ex lx with
  | S754_finite s _ _ | S754_infinity s => s = sx
  | _ => True
  end.
Proof.
  unfold binary_round_aux.
  destruct (shr_fexp prec emax mx ex lx) as [mrs' e'].
  destruct (shr_fexp prec emax _ e' loc_Exact) as [mrs'' e''].
  destruct (shr_m mrs''); [exact I | | exact I].
  destruct (e'' <=? emax - prec); reflexivity.
Qed.

(** A number that is neither NaN nor below zero, times sixty. *)
Lemma product_signClear (x : Number) :
  isNaN x = false -> (x <? 0)%float = false -> signClear (x * 60)%float.
Proof.
  unfold isNaN, PrimFloat.is_nan, signClear.
  rewrite FloatAxioms.eqb_spec, FloatAxioms.ltb_spec, mul_spec, Prim2SF_zero, Prim2SF_sixty.
  destruct (Prim2SF x) as [s|s| |s m e]; simpl; try discriminate; try (intros; exact I).
  - destruct s; [discriminate | reflexivity].
  - intros _ Hs. destruct s; [discriminate|].
    apply (binary_round_aux_sign false).
Qed.

(** Rounding a positive integer never gives NaN. *)
Lemma shr_1_nonneg (mrs : shr_record) : 0 <= shr_m mrs -> 0 <= shr_m (shr_1 mrs).
Proof.
  destruct mrs as [m r s]. simpl. intros Hm.
  destruct m as [|p|p]; [simpl; lia | destruct p; simpl; lia | lia].
Qed.

Lemma shr_fexp_nonneg (m e : Z) (l : location) :
  0 <= m -> 0 <= shr_m (fst (shr_fexp prec emax m e l)).
Proof.
  intros Hm. unfold shr_fexp, shr.
  assert (H0 : 0 <= shr_m (shr_record_of_loc m l)) by (destruct l as [|[]]; exact Hm).
  destruct (fexp prec emax (Zdigits2 m + e) - e) as [|p|p]; simpl; try exact H0.
  generalize (shr_record_of_loc m l) H0. clear H0.
  induction p as [p IH|p IH|]; intros mrs H; simpl.
  - apply IH, IH, shr_1_nonneg, H.
  - apply IH, IH, H.
  - apply shr_1_nonneg, H.
Qed.

Lemma binary_round_aux_not_nan (sx : bool) (p : positive) (e : Z) :
  binary_round_aux prec emax sx (Zpos p) e loc_Exact <> S754_nan.
Proof.
  unfold binary_round_aux.
  pose proof (shr_fexp_nonneg (Zpos p) e loc_Exact ltac:(lia)) as H1.
  destruct (shr_fexp prec emax (Zpos p) e loc_Exact) as [mrs' e']. simpl in H1.
  assert (H2 : 0 <= round_nearest_even (shr_m mrs') (loc_of_shr_record mrs')).
  { unfold round_nearest_even.
    destruct (loc_of_shr_record mrs') as [|[]]; try lia.
    destruct (Z.even (shr_m mrs')); lia. }
  pose proof (shr_fexp_nonneg _ e' loc_Exact H2) as H3.
  destruct (shr_fexp prec emax _ e' loc_Exact) as [mrs'' e'']. simpl in H3.
  destruct (shr_m mrs''); [discriminate | | lia].
  destruct (e'' <=? emax - prec); discriminate.
Qed.

(** A number that is not NaN, times sixty, is not NaN. *)
Lemma product_not_nan (x : Number) :
  isNaN x = false -> Prim2SF (x * 60)%float <> S754_nan.
Proof.
  unfold isNaN, PrimFloat.is_nan.
  rewrite FloatAxioms.eqb_spec, mul_spec, Prim2SF_sixty.
  destruct (Prim2SF x) as [s|s| |s m e]; simpl; try discriminate.
  intros _. apply binary_round_aux_not_nan.
Qed.

(** The minutes of [decimalToTimeString], rendered: two digits of a number
    from 0 to 59, or "NaN" when the total is infinite. *)
Lemma minutes_rendering (y : Number) :
  signClear y ->
  let minutes := Number_rem (Math_round y) 60 in
  (Prim2SF y = S754_infinity false \/ Prim2SF y = S754_nan)
  /\ padStart 2 "0" (Number_toString minutes) = "NaN"
  \/ exists v, 0 <= v <= 59
       /\ padStart 2 "0" (Number_toString minutes) = fixedDigits 2 v.
Proof.
  intros Hs. cbv zeta. unfold signClear in Hs.
  pose proof (Prim2SF_valid y) as Hvalid.
  unfold Math_round.
  destruct (Prim2SF y) as [s|s| |s m e] eqn:E.
  - right. exists 0. split; [lia|].
    unfold Number_rem. rewrite E, Prim2SF_sixty.
    unfold Number_toString. rewrite E. reflexivity.
  - left. subst s. split; [left; reflexivity|].
    unfold Number_rem. rewrite E. reflexivity.
  - left. split; [right; reflexivity|].
    unfold Number_rem. rewrite E. reflexivity.
  - subst s. right. destruct (0 <=? e) eqn:He.
    + apply Z.leb_le in He.
      pose proof (Z.mod_pos_bound (Zpos m * 2 ^ e) 60 ltac:(lia)) as Hv.
      exists ((Zpos m * 2 ^ e) mod 60). split; [lia|].
      rewrite (Number_rem_sixty y m e (Zpos m * 2 ^ e) E) by
        (try lia; rewrite Z.pow_add_r by lia; lia).
      apply remainder60_rendering; lia.
    + apply Z.leb_gt in He. cbn [cond_Zopp].
      set (rr := (2 * Zpos m + 2 ^ (- e)) / 2 ^ (- e + 1)).
      assert (Hm : Zpos m < 2 ^ 53).
      { pose proof (digits2_pos_bounds m) as Hb.
        unfold SpecFloat.valid_binary, bounded, canonical_mantissa, fexp, emin, prec, emax in Hvalid.
        apply andb_true_iff in Hvalid as [Hc _]. apply Z.eqb_eq in Hc.
        assert (Zpos (digits2_pos m) <= 53) by lia.
        assert (2 ^ Zpos (digits2_pos m) <= 2 ^ 53) by (apply Z.pow_le_mono_r; lia).
        lia. }
      assert (Hrr : 0 <= rr < 2 ^ 53).
      { subst rr. rewrite Z.pow_add_r by lia.
        assert (2 <= 2 ^ (- e)).
        { change 2 with (2 ^ 1) at 1. apply Z.pow_le_mono_r; lia. }
        set (P := 2 ^ (- e)) in *. change (2 ^ 1) with 2. split.
        - apply Z.div_pos; lia.
        - apply Z.div_lt_upper_bound; [lia|].
          change (2 ^ 53) with 9007199254740992 in *. lia. }
      destruct (rr =? 0) eqn:Hz.
      * exists 0. split; [lia|].
        unfold Number_rem. change (Prim2SF PrimFloat.zero) with (S754_zero false).
        rewrite Prim2SF_sixty. reflexivity.
      * apply Z.eqb_neq in Hz.
        destruct (Prim2SF_Number_ofZ rr) as (mz & ez & Hn & Hez & Hv); [lia|].
        pose proof (Z.mod_pos_bound rr 60 ltac:(lia)) as Hv60.
        exists (rr mod 60). split; [lia|].
        rewrite (Number_rem_sixty (Number_ofZ rr) mz ez rr Hn).
        -- apply remainder60_rendering; lia.
        -- lia.
        -- rewrite Hv, <- Z.mul_assoc, <- Z.pow_add_r by lia.
           f_equal. f_equal. lia.
Qed.

(** C4 (as amended): half an hour is "00:30", minus one hour and NaN are
    "0:00", 8.0083333 hours are "08:00"; every NaN or negative input gives
    "0:00"; every other input is rounded once, to the nearest total minute
    (0.9999 hours are "01:00"), and split into hours and minutes, the
    minutes being two digits of a number from 0 to 59 (or "NaN", which
    happens only when the hours times sixty are [Infinity]), never 60. *)
Theorem decimalToTimeString_values_and_minutes :
  decimalToTimeString 0.5 = "00:30"
  /\ decimalToTimeString (-1) = "0:00"
  /\ decimalToTimeString NaN = "0:00"
  /\ decimalToTimeString 8.0083333 = "08:00"
  /\ decimalToTimeString 0.9999 = "01:00"
  /\ (forall x, isNaN x = true \/ (x <? 0)%float = true ->
        decimalToTimeString x = "0:00")
  /\ (forall x, isNaN x = false -> (x <? 0)%float = false ->
        let totalMinutes := Math_round (x * 60)%float in
        exists minutes : string,
          decimalToTimeString x =
            padStart 2 "0" (Number_toString (Math_floor (totalMinutes / 60)%float))
            +:+ ":" +:+ minutes
          /\ (minutes = "NaN" /\ (x * 60)%float = Infinity
              \/ exists v, 0 <= v <= 59 /\ minutes = fixedDigits 2 v)).
Proof.
  do 5 (split; [vm_compute; reflexivity|]).
  split.
  - intros x [H|H]; unfold decimalToTimeString; rewrite H;
      [reflexivity | rewrite orb_true_r; reflexivity].
  - intros x Hn Hneg. cbv zeta.
    exists (padStart 2 "0" (Number_toString (Number_rem (Math_round (x * 60)) 60))).
    split.
    + unfold decimalToTimeString. rewrite Hn, Hneg. reflexivity.
    + destruct (minutes_rendering (x * 60)%float (product_signClear x Hn Hneg))
        as [[[Hinf|Hnan] H]|H]; [left | | right; exact H].
      * split; [exact H|].
        rewrite <- (SF2Prim_Prim2SF (x * 60)%float), Hinf. reflexivity.
      * destruct (product_not_nan x Hn Hnan).
Qed.

Lemma decimalToTimeString_values_and_minutes_witness :
  decimalToTimeString (-1) = "0:00".
Proof.
  exact (proj1 (proj2 (proj2 (proj2 (proj2 (proj2
           decimalToTimeString_values_and_minutes)))))
           (-1)%float (or_intror eq_refl)).
Defined.

(** * The rest of the service and the report view *)

(** ** The comparator sort *)

Lemma insertWith_Permutation {A : Type} (cmp : A -> A -> Z) r l :
  insertWith cmp r l ≡ₚ r :: l.
Proof.
  induction l as [|x t IH]; simpl; [reflexivity|].
  destruct (cmp r x <=? 0); [reflexivity|].
  rewrite IH. apply Permutation_swap.
Qed.

Lemma sortWith_Permutation {A : Type} (cmp : A -> A -> Z) l : sortWith cmp l ≡ₚ l.
Proof.
  induction l as [|x t IH]; simpl; [reflexivity|].
  rewrite insertWith_Permutation. by rewrite IH.
Qed.

Lemma sortByDate_sortWith l : sortByDate l = sortWith (fun a b => date a - date b) l.
Proof.
  unfold sortByDate, sortWith. induction l as [|x t IH]; simpl; [reflexivity|].
  rewrite IH. generalize (foldr (insertWith (fun a b => date a - date b)) [] t).
  intros l'. induction l' as [|y u IHu]; simpl; [reflexivity|].
  replace (date x - date y <=? 0) with (date x <=? date y) by lia.
  destruct (date x <=? date y); [reflexivity|]. by rewrite IHu.
Qed.

Lemma sortByDate_Permutation l : sortByDate l ≡ₚ l.
Proof. rewrite sortByDate_sortWith. apply sortWith_Permutation. Qed.

Lemma insertWith_fmap {A B : Type} (cmp : A -> A -> Z) (cmp' : B -> B -> Z)
    (f : A -> B) r l :
  (forall a b, cmp' (f a) (f b) = cmp a b) ->
  f <$> insertWith cmp r l = insertWith cmp' (f r) (f <$> l).
Proof.
  intros Hf. induction l as [|x t IH]; simpl; [reflexivity|].
  rewrite Hf. destruct (cmp r x <=? 0); simpl; [reflexivity|]. f_equal. apply IH.
Qed.

Lemma sortWith_fmap {A B : Type} (cmp : A -> A -> Z) (cmp' : B -> B -> Z)
    (f : A -> B) l :
  (forall a b, cmp' (f a) (f b) = cmp a b) ->
  f <$> sortWith cmp l = sortWith cmp' (f <$> l).
Proof.
  intros Hf. induction l as [|x t IH]; simpl; [reflexivity|].
  change (f <$> insertWith cmp x (sortWith cmp t)
          = insertWith cmp' (f x) (sortWith cmp' (f <$> t))).
  rewrite (insertWith_fmap cmp cmp' f) by exact Hf. by rewrite IH.
Qed.

Lemma insertWith_Sorted {A : Type} (cmp : A -> A -> Z) (R : A -> A -> Prop) r l :
  (forall a b, cmp a b <= 0 -> R a b) ->
  (forall a b, 0 < cmp a b -> R b a) ->
  Sorted R l -> Sorted R (insertWith cmp r l).
Proof.
  intros Hle Hgt. induction 1 as [|x t Ht IH Hx]; simpl.
  - repeat constructor.
  - destruct (Z.leb_spec (cmp r x) 0) as [Hc|Hc].
    + constructor; [by constructor|]. constructor. by apply Hle.
    + constructor; [exact IH|].
      destruct t as [|y u]; simpl.
      * constructor. by apply Hgt.
      * inversion Hx; subst.
        destruct (cmp r y <=? 0); constructor; [by apply Hgt | assumption].
Qed.

Lemma sortWith_Sorted {A : Type} (cmp : A -> A -> Z) (R : A -> A -> Prop) l :
  (forall a b, cmp a b <= 0 -> R a b) ->
  (forall a b, 0 < cmp a b -> R b a) ->
  Sorted R (sortWith cmp l).
Proof.
  intros Hle Hgt. induction l as [|x t IH]; simpl; [constructor|].
  by apply insertWith_Sorted.
Qed.

(** ** What the reconciler keeps, adds and changes *)

Lemma walk_reclassified W F Hh tz nextDay hs e mx fuel c :
  Forall (reclassified W F Hh tz hs (employeeName e) (records e))
    (walk W F Hh tz nextDay hs (employeeName e) (recordsMapOf (records e)) mx fuel c).
Proof.
  revert c. induction fuel as [|n IH]; intros c; simpl; [constructor|].
  destruct (c <=? mx); [|constructor].
  constructor; [|apply IH].
  destruct (recordsMapOf (records e) !! toISODate c) as [r|] eqn:E.
  - exists r. split; [left; apply recordsMapOf_Some in E as [Hin _]; exact Hin|].
    reflexivity.
  - exists (placeholder (employeeName e) c). split; [right; eauto | reflexivity].
Qed.

Lemma length_walk W F Hh tz nextDay hs name m name' m' mx fuel c :
  length (walk W F Hh tz nextDay hs name m mx fuel c)
  = length (walk W F Hh tz nextDay hs name' m' mx fuel c).
Proof.
  revert c. induction fuel as [|n IH]; intros c; simpl; [reflexivity|].
  destruct (c <=? mx); [|reflexivity]. simpl. f_equal. apply IH.
Qed.

Lemma analyzeEmployee_length W F Hh tz nextDay hs mn mx e1 e2 :
  length (records (analyzeEmployee W F Hh tz nextDay hs mn mx e1))
  = length (records (analyzeEmployee W F Hh tz nextDay hs mn mx e2)).
Proof.
  unfold analyzeEmployee. cbn [records].
  rewrite !(Permutation_length (sortByDate_Permutation _)).
  apply length_walk.
Qed.

Lemma dateRange_none employees :
  Forall (fun e => records e = []) employees -> dateRange employees = (None, None).
Proof.
  intros H. rewrite dateRange_flat.
  replace (allRecords employees) with (@nil AttendanceRecord); [reflexivity|].
  unfold allRecords. induction H as [|e es He _ IH]; [reflexivity|].
  simpl. rewrite He. exact IH.
Qed.

(** The result of [analyzeData] is the input when no employee has a record,
    and one pass of [analyzeEmployee] over the employees otherwise. *)
Lemma analyzeData_cases W F Hh tz nextDay employees holidayList :
  (Forall (fun e => records e = []) employees
   /\ analyzeData W F Hh tz nextDay employees holidayList = employees)
  \/ exists mn mx,
       dateRange employees = (Some mn, Some mx)
       /\ analyzeData W F Hh tz nextDay employees holidayList
          = analyzeEmployee W F Hh tz nextDay (list_to_set (Holiday.date <$> holidayList)) mn mx
              <$> employees.
Proof.
  unfold analyzeData. destruct employees as [|e es]; [left; split; [constructor|reflexivity]|].
  destruct (dateRange_cases (e :: es)) as [[Hr Hnone]|(mn & mx & Hr)]; rewrite Hr.
  - left. split; [exact Hnone | reflexivity].
  - right. exists mn, mx. split; reflexivity.
Qed.

Lemma analyzeData_reclassified W F Hh tz nextDay employees holidayList :
  Forall2 (fun e e' =>
      employeeName e' = employeeName e
      /\ Forall (reclassified W F Hh tz (list_to_set (Holiday.date <$> holidayList))
                   (employeeName e) (records e)) (records e'))
    employees (analyzeData W F Hh tz nextDay employees holidayList).
Proof.
  destruct (analyzeData_cases W F Hh tz nextDay employees holidayList)
    as [[Hnone ->]|(mn & mx & _ & ->)].
  - apply Forall2_same_length_lookup. split; [reflexivity|].
    intros i e e' He He'. rewrite He in He'. injection He' as <-.
    split; [reflexivity|].
    rewrite (proj1 (Forall_lookup _ _) Hnone i e He). constructor.
  - apply Forall2_fmap_r, Forall2_same_length_lookup. split; [reflexivity|].
    intros i e e' He He'. rewrite He in He'. injection He' as <-.
    split; [reflexivity|]. unfold analyzeEmployee. cbn [records].
    apply sortByDate_Forall, walk_reclassified.
Qed.

(** X5: [analyzeData] keeps the employees, their names and their order; every
    record of its result is a record of the same employee of the input, or
    the placeholder of some day, in which nothing but the status is changed,
    and the status is the one [getStatus] computes; and all employees of the
    result have the same number of records. *)
Theorem analyzeData_changes_status_only W F Hh tz nextDay employees holidayList :
  let result := analyzeData W F Hh tz nextDay employees holidayList in
  Forall2 (fun e e' =>
      employeeName e' = employeeName e
      /\ Forall (reclassified W F Hh tz (list_to_set (Holiday.date <$> holidayList))
                   (employeeName e) (records e)) (records e'))
    employees result
  /\ (forall e1 e2, e1 ∈ result -> e2 ∈ result ->
        length (records e1) = length (records e2)).
Proof.
  intros result. split; [apply analyzeData_reclassified|].
  subst result.
  destruct (analyzeData_cases W F Hh tz nextDay employees holidayList)
    as [[Hnone ->]|(mn & mx & _ & ->)]; intros e1 e2 H1 H2.
  - rewrite (proj1 (Forall_forall _ _) Hnone e1 H1).
    rewrite (proj1 (Forall_forall _ _) Hnone e2 H2). reflexivity.
  - apply list_elem_of_fmap in H1 as (a1 & -> & _).
    apply list_elem_of_fmap in H2 as (a2 & -> & _).
    apply analyzeEmployee_length.
Qed.

(** X10: a day that [analyzeData] synthesized is never flagged as a missed
    punch by the table of the view: a flagged record of the result is a
    record of the input with its status recomputed. *)
Theorem analyzeData_missedPunch_observed W F Hh tz nextDay employees holidayList :
  Forall2 (fun e e' =>
      Forall (fun r' =>
          missedPunch r' = true ->
          exists r, r ∈ records e
            /\ r' = set_status r
                      (getStatus W F Hh tz r
                         (list_to_set (Holiday.date <$> holidayList))))
        (records e'))
    employees (analyzeData W F Hh tz nextDay employees holidayList).
Proof.
  eapply Forall2_impl; [apply analyzeData_reclassified|].
  intros e e' [_ H]. eapply Forall_impl; [exact H|].
  intros r' (r0 & [Hin|[c ->]] & ->) Hm.
  - exists r0. split; [exact Hin | reflexivity].
  - discriminate Hm.
Qed.

(** ** The holiday list and the constants change statuses only *)

Lemma walk_unclassified W F Hh hs W' F' Hh' hs' tz nextDay name m mx fuel c :
  (fun r => set_status r UNKNOWN) <$> walk W F Hh tz nextDay hs name m mx fuel c
  = (fun r => set_status r UNKNOWN) <$> walk W' F' Hh' tz nextDay hs' name m mx fuel c.
Proof.
  revert c. induction fuel as [|n IH]; intros c; simpl; [reflexivity|].
  destruct (c <=? mx); [|reflexivity]. simpl. f_equal. apply IH.
Qed.

Lemma sortByDate_fmap (f : AttendanceRecord -> AttendanceRecord) l :
  (forall r, date (f r) = date r) ->
  f <$> sortByDate l = sortByDate (f <$> l).
Proof.
  intros Hf. rewrite !sortByDate_sortWith. apply sortWith_fmap.
  intros a b. by rewrite !Hf.
Qed.

(** X7: on one host (one UTC offset, one step to the next local day,
    whatever they are) the holiday list, the weekend days and the two
    thresholds decide statuses only: two runs of [analyzeData] over the
    same employees list the same records in the same order, and differ at
    most in the status of a record. *)
Theorem analyzeData_settings_change_status_only
    W F Hh holidayList W' F' Hh' holidayList' tz nextDay employees :
  unclassified (analyzeData W F Hh tz nextDay employees holidayList)
  = unclassified (analyzeData W' F' Hh' tz nextDay employees holidayList').
Proof.
  destruct (analyzeData_cases W F Hh tz nextDay employees holidayList)
    as [[Hnone ->]|(mn & mx & Hr & ->)];
  destruct (analyzeData_cases W' F' Hh' tz nextDay employees holidayList')
    as [[Hnone' ->]|(mn' & mx' & Hr' & ->)]; try reflexivity.
  - rewrite (dateRange_none employees Hnone) in Hr'. discriminate Hr'.
  - rewrite (dateRange_none employees Hnone') in Hr. discriminate Hr.
  - rewrite Hr in Hr'. injection Hr' as <- <-.
    unfold unclassified. rewrite <- !list_fmap_compose.
    apply list_fmap_ext. intros i e _. unfold compose, analyzeEmployee.
    cbn [employeeName records]. f_equal.
    rewrite !sortByDate_fmap by reflexivity. f_equal.
    apply walk_unclassified.
Qed.

(** ** Which observed records survive *)

Lemma recordsMapOf_last l1 r l2 :
  Forall (fun r2 => toISODate (date r2) <> toISODate (date r)) l2 ->
  recordsMapOf (l1 ++ r :: l2) !! toISODate (date r) = Some r.
Proof.
  induction l2 as [|x l2 IH] using rev_ind; intros H.
  - rewrite recordsMapOf_snoc. apply lookup_insert_eq.
  - apply Forall_app in H as [H2 Hx]. inversion Hx as [|? ? Hne _]; subst.
    replace (l1 ++ r :: l2 ++ [x])%list with ((l1 ++ r :: l2) ++ [x])%list
      by (rewrite <- app_assoc; reflexivity).
    rewrite recordsMapOf_snoc, lookup_insert_ne by exact Hne. apply IH, H2.
Qed.

Lemma walkDates_day_elem n c d :
  Day c <= d < Day c + Z.of_nat n -> exists x, x ∈ walkDates n c /\ Day x = d.
Proof.
  intros Hd.
  assert (H : d ∈ Day <$> walkDates n c)
    by (rewrite walkDates_Day; apply elem_of_seqZ; lia).
  apply list_elem_of_fmap in H as (x & -> & Hx). eauto.
Qed.

Lemma Day_mono a b : a <= b -> Day a <= Day b.
Proof. unfold Day, msPerDay. intros H. apply Z.div_le_mono; lia. Qed.

(** X6: which observed records [analyzeData] keeps, on valid dates and on a
    host with a fixed UTC offset (the step to the next local day is 24
    hours).  A record that is the last one of its calendar day in its
    employee's list comes back with its status recomputed when its day is
    before the day of the greatest date, or when the least date's time of
    day is not after the greatest date's; otherwise (it is of the last day,
    and the least date's time of day is later) the result has no record of
    its day at all. *)
Theorem analyzeData_keeps_last_of_day
    W F Hh tz nextDay employees holidayList mn mx (i : nat) e l1 r l2 :
  (forall t, nextDay t = t + msPerDay) ->
  Forall (fun r => validTime (date r)) (allRecords employees) ->
  dateRange employees = (Some mn, Some mx) ->
  employees !! i = Some e ->
  records e = (l1 ++ r :: l2)%list ->
  Forall (fun r2 => toISODate (date r2) <> toISODate (date r)) l2 ->
  exists e',
    analyzeData W F Hh tz nextDay employees holidayList !! i = Some e'
    /\ (Day (date r) < Day mx \/ mn mod msPerDay <= mx mod msPerDay ->
        set_status r
          (getStatus W F Hh tz r (list_to_set (Holiday.date <$> holidayList)))
        ∈ records e')
    /\ (~ (Day (date r) < Day mx \/ mn mod msPerDay <= mx mod msPerDay) ->
        Forall (fun r' => Day (date r') <> Day (date r)) (records e')).
Proof.
  intros Hstep Hv Hr He Hrec Hlast.
  pose proof (dateRange_isRange employees mn mx Hr) as Hrange.
  destruct (isRange_valid _ _ _ Hv Hrange) as (Hmn & Hmx & Hle).
  assert (Hin : r ∈ allRecords employees).
  { apply allRecords_elem. exists e. split; [eapply list_elem_of_lookup_2; exact He|].
    rewrite Hrec. apply elem_of_app. right. left. }
  destruct Hrange as (_ & _ & Hall).
  pose proof (proj1 (Forall_forall _ _) Hall r Hin) as Hbounds. cbv beta in Hbounds.
  assert (Hve : Forall (fun r => validTime (date r)) (records e)).
  { apply allRecords_Forall in Hv.
    exact (proj1 (Forall_lookup _ _) Hv i e He). }
  set (hs := list_to_set (Holiday.date <$> holidayList) : gset string).
  exists (analyzeEmployee W F Hh tz nextDay hs mn mx e).
  assert (Hfuel := walkFuel_count mn mx Hle).
  destruct (span_days mn mx) as [Hfull Hshort].
  pose proof (Day_mono mn (date r) (proj1 Hbounds)) as Hd1.
  pose proof (Day_mono (date r) mx (proj2 Hbounds)) as Hd2.
  split; [|split].
  - destruct (analyzeData_cases W F Hh tz nextDay employees holidayList)
      as [[Hnone _]|(mn' & mx' & Hr' & ->)].
    + rewrite (dateRange_none employees Hnone) in Hr. discriminate Hr.
    + rewrite Hr in Hr'. injection Hr' as <- <-.
      rewrite list_lookup_fmap, He. reflexivity.
  - intros Hcase. rewrite analyzeEmployee_records by assumption.
    destruct (walkDates_day_elem (walkFuel mn mx) mn (Day (date r))) as (x & Hx & Hday).
    { rewrite Hfuel.
      destruct (Z_lt_le_dec (mx mod msPerDay) (mn mod msPerDay)) as [Hlt|Hge].
      - rewrite (Hshort Hlt). lia.
      - rewrite (Hfull Hge). lia. }
    apply list_elem_of_fmap. exists x. split; [|exact Hx].
    unfold emitted. rewrite (toISODate_Day x (date r) Hday), Hrec.
    rewrite recordsMapOf_last by exact Hlast. reflexivity.
  - intros Hcase.
    assert (Hlt : mx mod msPerDay < mn mod msPerDay) by lia.
    assert (Hday : Day (date r) = Day mx) by lia.
    apply Forall_forall. intros r' Hr' Heq.
    assert (Hdays : Day (date r') ∈ seqZ (Day mn) (Day mx - Day mn)).
    { rewrite <- (Hshort Hlt), <- Hfuel.
      rewrite <- (emitted_days W F Hh tz hs e Hve (walkFuel mn mx) mn)
        by (apply walkDates_valid; assumption).
      rewrite <- (analyzeEmployee_records W F Hh tz nextDay) by assumption.
      apply list_elem_of_fmap. exists r'. split; [reflexivity | exact Hr']. }
    apply elem_of_seqZ in Hdays. lia.
Qed.

Ltac sample_dates_valid :=
  unfold allRecords, atMidnight; cbn [fmap list_fmap concat records app];
  repeat first [apply List.Forall_cons | apply List.Forall_nil];
  unfold validTime, observed, jan1, msPerDay; cbn [date]; lia.

Lemma analyzeData_keeps_last_of_day_witness :
  exists e',
    analyzeData defaultWeekend 8 4 0 dayLater atMidnight [] !! 0%nat = Some e'
    /\ (Day jan1 < Day (jan1 + 2 * msPerDay)
        \/ jan1 mod msPerDay <= (jan1 + 2 * msPerDay) mod msPerDay ->
        set_status (observed "A" "a-1" jan1 8) PRESENT ∈ records e')
    /\ (~ (Day jan1 < Day (jan1 + 2 * msPerDay)
           \/ jan1 mod msPerDay <= (jan1 + 2 * msPerDay) mod msPerDay) ->
        Forall (fun r' => Day (date r') <> Day jan1) (records e')).
Proof.
  assert (Hv : Forall (fun r => validTime (date r)) (allRecords atMidnight))
    by sample_dates_valid.
  assert (Hlast : Forall (fun r2 => toISODate (date r2) <> toISODate jan1)
                    [observed "A" "a-3" (jan1 + 2 * msPerDay) 5]).
  { repeat constructor. vm_compute. discriminate. }
  exact (analyzeData_keeps_last_of_day defaultWeekend 8 4 0 dayLater atMidnight []
           jan1 (jan1 + 2 * msPerDay) 0 _ [] (observed "A" "a-1" jan1 8) _
           (fun t => eq_refl) Hv eq_refl eq_refl eq_refl Hlast).
Defined.

(** ** What the summary counts *)

Lemma countIf_cons p r rs :
  countIf p (r :: rs) = (if p r then 1 else 0) + countIf p rs.
Proof. unfold countIf. simpl. destruct (p r); simpl length; lia. Qed.

Lemma count_countIf (P : AttendanceRecord -> Prop) `{!forall r, Decision (P r)}
    (p : AttendanceRecord -> bool) rs :
  Forall (fun r => P r <-> p r = true) rs -> count P rs = countIf p rs.
Proof.
  induction 1 as [|r rs Hr _ IH]; [reflexivity|].
  rewrite count_cons, countIf_cons, IH.
  case_decide; destruct (p r); intuition (discriminate || lia).
Qed.

Lemma countIf_three p q rs :
  Z.of_nat (length rs)
  = countIf p rs + countIf (fun r => negb (p r) && q r) rs
    + countIf (fun r => negb (p r) && negb (q r)) rs.
Proof.
  induction rs as [|r rs IH]; [reflexivity|].
  rewrite !countIf_cons. cbn [length]. rewrite Nat2Z.inj_succ, IH.
  destruct (p r), (q r); simpl; lia.
Qed.

Lemma count_nonneg (P : AttendanceRecord -> Prop) `{!forall r, Decision (P r)} rs :
  0 <= count P rs.
Proof. unfold count. lia. Qed.

Lemma getStatus_by_day W F Hh tz r hs :
  (0 <? F)%float = true ->
  let s := getStatus W F Hh tz r hs in
  ((s = HOLIDAY \/ s = WORK_ON_HOLIDAY) <-> onHoliday hs r = true)
  /\ ((s = WEEKEND \/ s = WORK_ON_WEEKEND)
      <-> negb (onHoliday hs r) && onWeekend W tz r = true)
  /\ (s = WORK_ON_HOLIDAY <-> onHoliday hs r && hasHours r = true).
Proof.
  intros HF s. subst s. unfold getStatus, onHoliday, onWeekend, hasHours.
  destruct (0 <? workHoursDecimal r)%float eqn:Hw.
  - destruct (bool_decide (toISODate (date r) ∈ hs)),
             (bool_decide (getDay tz (date r) ∈ W)),
             (F <=? workHoursDecimal r)%float, (Hh <=? workHoursDecimal r)%float;
      simpl; intuition congruence.
  - rewrite (special_case_false F r HF Hw).
    destruct (bool_decide (toISODate (date r) ∈ hs)),
             (bool_decide (getDay tz (date r) ∈ W));
      simpl; intuition congruence.
Qed.

Lemma classified_counters W F Hh tz hs rs :
  (0 <? F)%float = true ->
  Forall (fun r => status r = getStatus W F Hh tz r hs) rs ->
  let c := summaryCounters rs in
  holidays c = countIf (onHoliday hs) rs
  /\ weekends c = countIf (fun r => negb (onHoliday hs r) && onWeekend W tz r) rs
  /\ totalDays c - holidays c - weekends c
     = countIf (fun r => negb (onHoliday hs r) && negb (onWeekend W tz r)) rs
  /\ workOnHoliday c = countIf (fun r => onHoliday hs r && hasHours r) rs.
Proof.
  intros HF Hc c.
  assert (H1 : holidays c = countIf (onHoliday hs) rs).
  { apply count_countIf. eapply Forall_impl; [exact Hc|]. intros r Hr. cbv beta in *.
    rewrite Hr. apply (getStatus_by_day W F Hh tz r hs HF). }
  assert (H2 : weekends c
     = countIf (fun r => negb (onHoliday hs r) && onWeekend W tz r) rs).
  { apply count_countIf. eapply Forall_impl; [exact Hc|]. intros r Hr. cbv beta in *.
    rewrite Hr. apply (getStatus_by_day W F Hh tz r hs HF). }
  split; [exact H1|]. split; [exact H2|]. split.
  - rewrite H1, H2. change (totalDays c) with (Z.of_nat (length rs)).
    rewrite (countIf_three (onHoliday hs) (onWeekend W tz) rs). lia.
  - apply count_countIf. eapply Forall_impl; [exact Hc|]. intros r Hr. cbv beta in *.
    rewrite Hr. apply (getStatus_by_day W F Hh tz r hs HF).
Qed.

Lemma analyzeData_classified W F Hh tz nextDay employees holidayList :
  Forall (fun r =>
      status r = getStatus W F Hh tz r (list_to_set (Holiday.date <$> holidayList)))
    (allRecords (analyzeData W F Hh tz nextDay employees holidayList)).
Proof.
  apply allRecords_Forall.
  destruct (analyzeData_cases W F Hh tz nextDay employees holidayList)
    as [[Hnone ->]|(mn & mx & _ & ->)].
  - eapply Forall_impl; [exact Hnone|]. intros e He. cbv beta in He. rewrite He.
    constructor.
  - apply Forall_fmap, Forall_forall. intros e _. simpl.
    apply sortByDate_Forall, walk_classified.
Qed.

(** X8: what the summary of a reconciled employee counts, for a positive
    full-day threshold: the holiday counter is the number of days of the
    holiday list, the weekend counter the number of weekend days that are
    not holidays, "Total Workable Days" the number of days that are
    neither, and "Work on Holiday" the number of holidays with hours above
    zero. *)
Theorem analyzeData_workable_days W F Hh tz nextDay employees holidayList :
  (0 <? F)%float = true ->
  Forall (fun e =>
      let hs := list_to_set (Holiday.date <$> holidayList) in
      let c := summaryCounters (records e) in
      holidays c = countIf (onHoliday hs) (records e)
      /\ weekends c
         = countIf (fun r => negb (onHoliday hs r) && onWeekend W tz r) (records e)
      /\ totalDays c - holidays c - weekends c
         = countIf (fun r => negb (onHoliday hs r) && negb (onWeekend W tz r))
             (records e)
      /\ workOnHoliday c
         = countIf (fun r => onHoliday hs r && hasHours r) (records e))
    (analyzeData W F Hh tz nextDay employees holidayList).
Proof.
  intros HF.
  pose proof (analyzeData_classified W F Hh tz nextDay employees holidayList) as Hc.
  apply allRecords_Forall in Hc.
  eapply Forall_impl; [exact Hc|]. intros e He.
  apply (classified_counters W F Hh tz _ (records e) HF He).
Qed.

Lemma analyzeData_workable_days_witness :
  Forall (fun e =>
      let hs := list_to_set (Holiday.date <$> []) in
      let c := summaryCounters (records e) in
      holidays c = countIf (onHoliday hs) (records e)
      /\ weekends c
         = countIf (fun r => negb (onHoliday hs r) && onWeekend defaultWeekend 0 r)
             (records e)
      /\ totalDays c - holidays c - weekends c
         = countIf (fun r => negb (onHoliday hs r)
                             && negb (onWeekend defaultWeekend 0 r)) (records e)
      /\ workOnHoliday c
         = countIf (fun r => onHoliday hs r && hasHours r) (records e))
    (analyzeData defaultWeekend 8 4 0 dayLater atMidnight []).
Proof.
  exact (analyzeData_workable_days defaultWeekend 8 4 0 dayLater atMidnight [] eq_refl).
Defined.

Lemma occurrences_total rs :
  Z.of_nat (length rs)
  = occurrences PRESENT rs + occurrences ABSENT rs + occurrences HALF_DAY rs
    + occurrences SHORT_HOURS rs
    + (occurrences HOLIDAY rs + occurrences WORK_ON_HOLIDAY rs)
    + (occurrences WEEKEND rs + occurrences WORK_ON_WEEKEND rs)
    + occurrences UNKNOWN rs.
Proof.
  induction rs as [|r rs IH]; [reflexivity|].
  cbn [length occurrences]. rewrite Nat2Z.inj_succ, IH.
  destruct (status r); repeat case_decide; congruence || lia.
Qed.

Lemma occurrences_nonneg s rs : 0 <= occurrences s rs.
Proof. induction rs as [|r rs IH]; simpl; [lia|]. case_decide; lia. Qed.

(** X9: the accounting of the summary for any records: "Total Workable
    Days" is the sum of the present, absent, short and half days and of the
    records whose status is still [UNKNOWN]; it is never negative and never
    above the number of records, and "Work on Holiday" is never above the
    holiday counter. *)
Theorem summary_workable_days_accounting (records : list AttendanceRecord) :
  let c := summaryCounters records in
  let workable := totalDays c - holidays c - weekends c in
  value <$> head (generateSummaryStats records) = Some (VNumber workable)
  /\ workable
     = present c + absent c + shortHours c + halfDays c
       + occurrences UNKNOWN records
  /\ 0 <= workable <= Z.of_nat (length records)
  /\ 0 <= workOnHoliday c <= holidays c.
Proof.
  intros c workable.
  assert (E : workable
     = present c + absent c + shortHours c + halfDays c
       + occurrences UNKNOWN records).
  { subst workable c. unfold summaryCounters.
    cbn [totalDays holidays weekends present absent shortHours halfDays].
    rewrite !count_status, !count_either by discriminate.
    rewrite (occurrences_total records). lia. }
  split; [reflexivity|]. split; [exact E|].
  pose proof (occurrences_nonneg UNKNOWN records).
  assert (Hh : holidays c
               = occurrences HOLIDAY records + occurrences WORK_ON_HOLIDAY records).
  { subst c. unfold summaryCounters. cbn [holidays].
    apply count_either. discriminate. }
  assert (Hw : workOnHoliday c = occurrences WORK_ON_HOLIDAY records).
  { subst c. unfold summaryCounters. cbn [workOnHoliday]. apply count_status. }
  pose proof (occurrences_nonneg HOLIDAY records).
  pose proof (occurrences_nonneg WORK_ON_HOLIDAY records).
  subst workable.
  pose proof (count_nonneg (fun r => status r = PRESENT) records).
  pose proof (count_nonneg (fun r => status r = ABSENT) records).
  pose proof (count_nonneg (fun r => status r = SHORT_HOURS) records).
  pose proof (count_nonneg (fun r => status r = HALF_DAY) records).
  pose proof (count_nonneg
    (fun r => status r = WEEKEND \/ status r = WORK_ON_WEEKEND) records).
  change (present c) with (count (fun r => status r = PRESENT) records) in E.
  change (absent c) with (count (fun r => status r = ABSENT) records) in E.
  change (shortHours c) with (count (fun r => status r = SHORT_HOURS) records) in E.
  change (halfDays c) with (count (fun r => status r = HALF_DAY) records) in E.
  change (weekends c)
    with (count (fun r => status r = WEEKEND \/ status r = WORK_ON_WEEKEND) records)
    in *.
  change (totalDays c) with (Z.of_nat (length records)) in *.
  lia.
Qed.

(** ** The date range of the view *)

Lemma foldl_rangeStep_min_max rs a b :
  foldl rangeStep (Some a, Some b) rs
  = (Some (foldl Z.min a (date <$> rs)), Some (foldl Z.max b (date <$> rs))).
Proof.
  revert a b. induction rs as [|r rs IH]; intros a b; [reflexivity|].
  cbn [foldl fmap list_fmap]. unfold rangeStep at 2. cbn [fst snd].
  replace (if date r <? a then Some (date r) else Some a)
    with (Some (Z.min a (date r))) by (destruct (Z.ltb_spec (date r) a); f_equal; lia).
  replace (if b <? date r then Some (date r) else Some b)
    with (Some (Z.max b (date r))) by (destruct (Z.ltb_spec b (date r)); f_equal; lia).
  apply IH.
Qed.

Lemma allDates_allRecords data :
  concat ((fun e => date <$> records e) <$> data) = date <$> allRecords data.
Proof.
  unfold allRecords. induction data as [|e es IH]; [reflexivity|].
  cbn [fmap list_fmap concat]. rewrite fmap_app. f_equal. exact IH.
Qed.

Lemma fullDateRange_cases now data :
  (allRecords data = [] /\ dateRange data = (None, None)
   /\ fullDateRange now data = (now, now))
  \/ exists mn mx,
       dateRange data = (Some mn, Some mx) /\ fullDateRange now data = (mn, mx).
Proof.
  unfold fullDateRange. cbv zeta. rewrite allDates_allRecords, dateRange_flat.
  destruct (allRecords data) as [|r rs]; [left; repeat split|].
  right. cbn [fmap list_fmap foldl]. unfold rangeStep at 2. cbn [fst snd].
  rewrite foldl_rangeStep_min_max. eauto.
Qed.

(** X11: the date range of the view is the one [analyzeData] walks: when
    some employee has a record, [fullDateRange] is the pair of dates the
    first loop of [analyzeData] finds, for any current time; when there is
    no record the first loop finds nothing and the view takes the current
    time twice. *)
Theorem fullDateRange_dateRange (now : Z) (data : list EmployeeData) :
  (forall mn mx,
     dateRange data = (Some mn, Some mx) -> fullDateRange now data = (mn, mx))
  /\ (dateRange data = (None, None) -> fullDateRange now data = (now, now))
  /\ (allRecords data = [] <-> dateRange data = (None, None)).
Proof.
  destruct (fullDateRange_cases now data)
    as [(Hnil & Hr & Hf)|(mn & mx & Hr & Hf)]; rewrite Hr, Hf.
  - split; [intros ? ? H; discriminate H|]. split; [reflexivity|]. tauto.
  - split; [intros ? ? H; injection H as <- <-; reflexivity|].
    split; [intros H; discriminate H|].
    split; [|intros H; discriminate H].
    intros Hnil. rewrite dateRange_flat, Hnil in Hr. discriminate Hr.
Qed.

(** ** The filter of the view *)

Lemma setHoursMidnight_le tz a b :
  setHoursMidnight tz a <= setHoursMidnight tz b <-> localDay tz a <= localDay tz b.
Proof. unfold setHoursMidnight, localDay, Day, msPerDay. lia. Qed.

Lemma localDay_mono tz a b : a <= b -> localDay tz a <= localDay tz b.
Proof. intros H. apply Day_mono. lia. Qed.

Lemma filter_fmap {A B : Type} (P : B -> Prop) `{!forall x, Decision (P x)}
    (f : A -> B) (l : list A) :
  filter P (f <$> l) = f <$> filter (fun x => P (f x)) l.
Proof.
  induction l as [|x l IH]; [reflexivity|].
  cbn [fmap list_fmap]. rewrite !filter_cons.
  change (list_fmap A B f l) with (f <$> l). rewrite IH.
  destruct (decide (P (f x))); reflexivity.
Qed.

Lemma filter_all {A : Type} (P : A -> Prop) `{!forall x, Decision (P x)} (l : list A) :
  Forall P l -> filter P l = l.
Proof.
  induction 1 as [|x l Hx _ IH]; [reflexivity|].
  rewrite filter_cons_True by exact Hx. by rewrite IH.
Qed.

Lemma filteredData_by_local_days tz sel s e data :
  filteredData tz sel (Some s) (Some e) data
  = (fun emp =>
       {| employeeName := employeeName emp;
          records :=
            filter (fun r => localDay tz s <= localDay tz (date r) <= localDay tz e)
                   (records emp) |})
    <$> filter (fun emp => sel = "All" \/ employeeName emp = sel) data.
Proof.
  unfold filteredData. cbv zeta. rewrite filter_fmap. cbn [employeeName].
  apply list_fmap_ext. intros i emp _. f_equal.
  apply list_filter_iff. intros r. rewrite !setHoursMidnight_le. reflexivity.
Qed.

(** X12: what the filter of the view keeps.  With both filter dates set, the
    result lists the employees selected (all of them for "All"), each with
    exactly those of its records whose local calendar day is from the local
    day of the start date to the local day of the end date, both included,
    in their order; the times of day play no part.  With a filter date
    missing or invalid the result is empty. *)
Theorem filteredData_local_days tz sel s e data :
  filteredData tz sel (Some s) (Some e) data
  = (fun emp =>
       {| employeeName := employeeName emp;
          records :=
            filter (fun r => localDay tz s <= localDay tz (date r) <= localDay tz e)
                   (records emp) |})
    <$> filter (fun emp => sel = "All" \/ employeeName emp = sel) data
  /\ filteredData tz sel None (Some e) data = []
  /\ filteredData tz sel (Some s) None data = []
  /\ filteredData tz sel None None data = [].
Proof.
  split; [apply filteredData_by_local_days | repeat split].
Qed.

Lemma filteredData_elem tz sel s e data r :
  r ∈ allRecords (filteredData tz sel s e data) -> r ∈ allRecords data.
Proof.
  destruct s as [s|], e as [e|]; intros H;
    [|inversion H|inversion H|inversion H].
  - rewrite filteredData_by_local_days in H.
    apply allRecords_elem in H as (emp' & Hemp & Hr).
    apply list_elem_of_fmap in Hemp as (emp & -> & Hemp).
    apply list_elem_of_filter in Hemp as [_ Hemp]. cbn [records] in Hr.
    apply list_elem_of_filter in Hr as [_ Hr].
    apply allRecords_elem. eauto.
Qed.

(** X13: with the filter dates the view starts from (the two dates of
    [fullDateRange]) no record is filtered out, whatever the times of day
    and the UTC offset: the result is the employees selected, unchanged, and
    with "All" selected it is the data itself. *)
Theorem filteredData_default_range tz sel now data :
  let range := fullDateRange now data in
  filteredData tz sel (Some range.1) (Some range.2) data
  = filter (fun emp => sel = "All" \/ employeeName emp = sel) data
  /\ filteredData tz "All" (Some range.1) (Some range.2) data = data.
Proof.
  intros range.
  assert (Hall : forall emp r, emp ∈ data -> r ∈ records emp ->
            localDay tz range.1 <= localDay tz (date r) <= localDay tz range.2).
  { intros emp r Hemp Hr.
    assert (Hin : r ∈ allRecords data) by (apply allRecords_elem; eauto).
    subst range.
    destruct (fullDateRange_cases now data)
      as [(Hnil & _)|(mn & mx & Hrange & ->)].
    - rewrite Hnil in Hin. inversion Hin.
    - apply dateRange_isRange in Hrange as (_ & _ & Hb).
      pose proof (proj1 (Forall_forall _ _) Hb r Hin) as Hr'. cbv beta in Hr'.
      cbn [fst snd]. split; apply localDay_mono; lia. }
  assert (E : forall sel',
    filteredData tz sel' (Some range.1) (Some range.2) data
    = filter (fun emp => sel' = "All" \/ employeeName emp = sel') data).
  { intros sel'. rewrite filteredData_by_local_days.
    rewrite <- (list_fmap_id (filter _ data)) at 2.
    apply list_fmap_ext. intros i emp Hi.
    apply list_elem_of_lookup_2, list_elem_of_filter in Hi as [_ Hemp].
    destruct emp as [n rs]. cbn [employeeName records] in *.
    change (Datatypes.id (mkEmployee n rs)) with (mkEmployee n rs). f_equal.
    apply filter_all, Forall_forall. intros r Hr.
    exact (Hall _ r Hemp Hr). }
  split; [apply E|]. rewrite E. apply filter_all, Forall_forall. intros; by left.
Qed.

(** ** The rows of the table *)

Lemma find_first {A : Type} (f : A -> bool) l1 x l2 :
  Forall (fun y => f y = false) l1 -> f x = true ->
  List.find f (l1 ++ x :: l2) = Some x.
Proof.
  induction 1 as [|y l1 Hy _ IH]; intros Hx; simpl; [by rewrite Hx|].
  rewrite Hy. by apply IH.
Qed.

Lemma find_none {A : Type} (f : A -> bool) l :
  Forall (fun y => f y = false) l -> List.find f l = None.
Proof. induction 1 as [|y l Hy _ IH]; simpl; [reflexivity|]. by rewrite Hy. Qed.

Lemma insertWith_same_date r l d :
  filter (fun x => date x = d) (insertWith latestFirst r l)
  = filter (fun x => date x = d) (r :: l).
Proof.
  induction l as [|x t IH]; [reflexivity|]. cbn [insertWith].
  unfold latestFirst at 1.
  destruct (Z.leb_spec (date x - date r) 0) as [Hc|Hc]; [reflexivity|].
  rewrite (filter_cons _ x), IH, !(filter_cons _ r), !(filter_cons _ x).
  repeat case_decide; reflexivity || lia.
Qed.

Lemma sortWith_same_date l d :
  filter (fun x => date x = d) (sortWith latestFirst l)
  = filter (fun x => date x = d) l.
Proof.
  induction l as [|x t IH]; [reflexivity|].
  change (sortWith latestFirst (x :: t))
    with (insertWith latestFirst x (sortWith latestFirst t)).
  rewrite insertWith_same_date, !(filter_cons _ x), IH. reflexivity.
Qed.

Lemma latestFirst_Sorted l : Sorted byDateDesc (sortWith latestFirst l).
Proof.
  apply sortWith_Sorted; unfold latestFirst, byDateDesc; intros; lia.
Qed.

Lemma latestFirstThenName_Sorted lc l :
  Sorted byDateDesc (sortWith (latestFirstThenName lc) l).
Proof.
  apply sortWith_Sorted; unfold latestFirstThenName, byDateDesc; intros a b;
    cbv zeta; destruct (Z.eqb_spec (date b - date a) 0); simpl; lia.
Qed.

(** X15: the rows of the table.  They are in descending order of date; for
    "All" they are the records of all filtered employees; for an employee
    they are the records of the first filtered employee of that name, the
    records of one date in their original order, and there is no row when no
    filtered employee has that name. *)
Theorem recordsToShow_latest_first lc sel (filtered : list EmployeeData) :
  let shown := recordsToShow lc sel filtered in
  Sorted byDateDesc shown
  /\ (sel = "All" -> shown ≡ₚ allRecords filtered)
  /\ (forall l1 emp l2,
        sel <> "All" -> filtered = (l1 ++ emp :: l2)%list ->
        Forall (fun e => employeeName e <> sel) l1 -> employeeName emp = sel ->
        shown ≡ₚ records emp
        /\ forall d, filter (fun r => date r = d) shown
                     = filter (fun r => date r = d) (records emp))
  /\ (sel <> "All" -> Forall (fun e => employeeName e <> sel) filtered ->
        shown = []).
Proof.
  intros shown. subst shown. unfold recordsToShow.
  split; [|split; [|split]].
  - case_bool_decide; [apply latestFirstThenName_Sorted|].
    destruct (List.find _ filtered); [apply latestFirst_Sorted | constructor].
  - intros ->. rewrite bool_decide_eq_true_2 by reflexivity.
    apply sortWith_Permutation.
  - intros l1 emp l2 Hsel -> Hl1 Hemp.
    rewrite bool_decide_eq_false_2 by exact Hsel.
    rewrite (find_first _ l1 emp l2).
    + split; [apply sortWith_Permutation | intros d; apply sortWith_same_date].
    + eapply Forall_impl; [exact Hl1|]. intros e He.
      by apply bool_decide_eq_false_2.
    + by apply bool_decide_eq_true_2.
  - intros Hsel Hnone. rewrite bool_decide_eq_false_2 by exact Hsel.
    rewrite find_none; [reflexivity|].
    eapply Forall_impl; [exact Hnone|]. intros e He. by apply bool_decide_eq_false_2.
Qed.

Lemma recordsToShow_elem lc sel filtered r :
  r ∈ recordsToShow lc sel filtered -> r ∈ allRecords filtered.
Proof.
  unfold recordsToShow. case_bool_decide.
  - intros Hr. by rewrite sortWith_Permutation in Hr.
  - destruct (List.find _ filtered) as [emp|] eqn:E; [|intros Hr; inversion Hr].
    apply List.find_some in E as [Hin _]. intros Hr.
    rewrite sortWith_Permutation in Hr.
    apply allRecords_elem. exists emp. split; [|exact Hr].
    by apply list_elem_of_In.
Qed.

(** X16: the cards of the view over reconciled data.  Every row the table
    shows carries the status [getStatus] gives it, never [UNKNOWN]; with
    "All" selected there are no cards and nothing is exported; with an
    employee selected the cards are those of the rows, and "Total Workable
    Days" is the sum of the present, absent, short and half days. *)
Theorem view_cards_of_reconciled_data
    W F Hh tz nextDay lc employees holidayList sel filterStartDate filterEndDate now :
  let data := analyzeData W F Hh tz nextDay employees holidayList in
  let shown :=
    recordsToShow lc sel (filteredData tz sel filterStartDate filterEndDate data) in
  let c := summaryCounters shown in
  Forall (fun r =>
      status r = getStatus W F Hh tz r (list_to_set (Holiday.date <$> holidayList))
      /\ status r <> UNKNOWN) shown
  /\ (sel = "All" -> summaryStats sel shown = [] /\ handleExport sel now = None)
  /\ (sel <> "All" ->
        summaryStats sel shown = generateSummaryStats shown
        /\ handleExport sel now = Some (exportFileName sel now)
        /\ totalDays c - holidays c - weekends c
           = present c + absent c + shortHours c + halfDays c).
Proof.
  intros data shown c.
  assert (Hc : Forall (fun r =>
      status r = getStatus W F Hh tz r (list_to_set (Holiday.date <$> holidayList))
      /\ status r <> UNKNOWN) shown).
  { apply Forall_forall. intros r Hr.
    apply recordsToShow_elem, filteredData_elem in Hr.
    pose proof (proj1 (Forall_forall _ _)
      (analyzeData_classified W F Hh tz nextDay employees holidayList) r Hr) as Hs.
    cbv beta in Hs. split; [exact Hs|]. rewrite Hs. apply getStatus_not_UNKNOWN. }
  split; [exact Hc|]. unfold summaryStats, handleExport. split.
  - intros ->. rewrite !bool_decide_eq_true_2 by reflexivity. split; reflexivity.
  - intros Hsel. rewrite !bool_decide_eq_false_2 by exact Hsel.
    split; [reflexivity|]. split; [reflexivity|].
    pose proof (summaryCounters_sum shown) as Hsum. cbv zeta in Hsum. fold c in Hsum.
    assert (Hu : Forall (fun r => status r <> UNKNOWN) shown)
      by (eapply Forall_impl; [exact Hc|]; intros r [_ H]; exact H).
    pose proof (occurrences_partition shown Hu) as Hp.
    change (totalDays c) with (Z.of_nat (length shown)). lia.
Qed.

(** ** The values of the date inputs *)

Lemma toISODate_not_empty t : toISODate t <> "".
Proof.
  unfold toISODate. destruct (civilFromDays (Day t)) as [[y m] d].
  destruct (yearString y); discriminate.
Qed.

Lemma civilFromDays_four_digit_year (z : Z) :
  -719528 <= z <= 2932896 ->
  let '(y, _, _) := civilFromDays z in 0 <= y <= 9999.
Proof.
  intros Hz. pose proof (daysFromCivil_civilFromDays z) as Hinv.
  pose proof (civilFromDays_range z) as Hr.
  destruct (civilFromDays z) as [[y m] d]. destruct Hr as [Hm Hd].
  unfold daysFromCivil in Hinv.
  destruct (Z.leb_spec m 2), (Z.ltb_spec 2 m); try lia;
    Z.div_mod_to_equations; lia.
Qed.

(** X17: the value [dateToInputValue] gives a date input.  It is empty
    exactly for a missing or invalid date; two valid dates get the same
    value exactly when they are of the same UTC day; and for a date of the
    years 0000 to 9999 the value has the ten characters of YYYY-MM-DD. *)
Theorem dateToInputValue_days :
  (forall d, dateToInputValue d = "" <-> d = None)
  /\ (forall a b, validTime a -> validTime b ->
        (dateToInputValue (Some a) = dateToInputValue (Some b) <-> Day a = Day b))
  /\ (forall t, -62167219200000 <= t <= 253402300799999 ->
        String.length (dateToInputValue (Some t)) = 10%nat
        /\ String.get 4 (dateToInputValue (Some t)) = Some "-"%char
        /\ String.get 7 (dateToInputValue (Some t)) = Some "-"%char).
Proof.
  split; [|split].
  - intros [t|]; simpl; split; try reflexivity; try discriminate.
    intros H. destruct (toISODate_not_empty t H).
  - intros a b Ha Hb. simpl. split; [by apply toISODate_inj | apply toISODate_Day].
  - intros t Ht. simpl. unfold toISODate.
    assert (Hz : -719528 <= Day t <= 2932896)
      by (unfold Day, msPerDay; Z.div_mod_to_equations; lia).
    pose proof (civilFromDays_four_digit_year (Day t) Hz) as Hy.
    destruct (civilFromDays (Day t)) as [[y m] d].
    unfold yearString.
    replace ((0 <=? y) && (y <=? 9999)) with true by lia.
    rewrite fixedDigits_4, !fixedDigits_2. repeat split.
Qed.

(** X14: the filter for dates taken from the date inputs.  A date input
    gives a date at UTC midnight of the day it shows.  For such filter
    dates, at a UTC offset from zero up to a day the filter keeps the
    records whose local day is from the day of the start date to the day of
    the end date; at a negative offset down to a day it keeps the local days
    from the day before the start date to the day before the end date. *)
Theorem filteredData_dates_at_utc_midnight tz sel s e data :
  s mod msPerDay = 0 -> e mod msPerDay = 0 -> - msPerDay <= tz < msPerDay ->
  let shift := if tz <? 0 then -1 else 0 in
  filteredData tz sel (Some s) (Some e) data
  = (fun emp =>
       {| employeeName := employeeName emp;
          records :=
            filter (fun r => Day s + shift <= localDay tz (date r) <= Day e + shift)
                   (records emp) |})
    <$> filter (fun emp => sel = "All" \/ employeeName emp = sel) data.
Proof.
  intros Hs He Htz shift.
  rewrite filteredData_by_local_days.
  assert (E : forall t, t mod msPerDay = 0 -> localDay tz t = Day t + shift).
  { intros t Ht. subst shift. unfold localDay, Day, msPerDay in *.
    destruct (Z.ltb_spec tz 0); Z.div_mod_to_equations; lia. }
  rewrite (E s Hs), (E e He). reflexivity.
Qed.

Lemma filteredData_dates_at_utc_midnight_witness :
  filteredData (- (5 * msPerHour)) "All" (Some (jan1 + msPerDay))
    (Some (jan1 + 2 * msPerDay)) atMidnight
  = (fun emp =>
       {| employeeName := employeeName emp;
          records :=
            filter (fun r => Day (jan1 + msPerDay) + -1
                             <= localDay (- (5 * msPerHour)) (date r)
                             <= Day (jan1 + 2 * msPerDay) + -1)
                   (records emp) |})
    <$> filter (fun emp => "All" = "All" \/ employeeName emp = "All") atMidnight.
Proof.
  apply (filteredData_dates_at_utc_midnight (- (5 * msPerHour)) "All"
           (jan1 + msPerDay) (jan1 + 2 * msPerDay) atMidnight);
    [reflexivity | reflexivity | unfold msPerHour, msPerDay; lia].
Defined.

(** ** The sheets of the export *)

Lemma orElse_not_empty o d : d <> "" -> orElse o d <> "".
Proof.
  intros Hd. unfold orElse. destruct o as [s|]; [|exact Hd].
  destruct (String.eqb_spec s ""); assumption.
Qed.

Lemma EXCEL_STATUS_FILLS_inj s1 s2 :
  EXCEL_STATUS_FILLS s1 = EXCEL_STATUS_FILLS s2 -> s1 = s2.
Proof. destruct s1, s2; simpl; intros H; reflexivity || discriminate H. Qed.

(** X18: the detail sheet of the export.  There is one row object per
    record, in the order of the records, with the keys Date, Day, InTime,
    OutTime, TotalHours, Status and Reason; the status cell is the status of
    the record; the cells for the times, the hours and the reason are never
    empty (a missing or empty value becomes "-", or "0:00" for the hours); the cells of
    row [index + 1] are filled with the colour of the status of the record
    at [index], and two rows have the same colour exactly when their records
    have the same status. *)
Theorem exportToExcel_detail_sheet toLocaleDateString weekdayLong
    (records : list AttendanceRecord) :
  let rows := reportData toLocaleDateString weekdayLong records in
  length rows = length records
  /\ length (rowFills records) = length records
  /\ (forall (index : nat) r, records !! index = Some r ->
        exists row,
          rows !! index = Some row
          /\ keysOf row
             = ["Date"; "Day"; "InTime"; "OutTime"; "TotalHours"; "Status"; "Reason"]
          /\ cellAt "Status" row = Some (CStatus (status r))
          /\ filledCell (cellAt "InTime" row)
          /\ filledCell (cellAt "OutTime" row)
          /\ filledCell (cellAt "TotalHours" row)
          /\ filledCell (cellAt "Reason" row)
          /\ (truthy (inTime r) = false -> cellAt "InTime" row = Some (CString "-"))
          /\ (truthy (outTime r) = false -> cellAt "OutTime" row = Some (CString "-"))
          /\ (truthy (totalHours r) = false ->
                cellAt "TotalHours" row = Some (CString "0:00"))
          /\ (reason r = "" -> cellAt "Reason" row = Some (CString "-"))
          /\ rowFills records !! index
             = Some (S index, EXCEL_STATUS_FILLS (status r)))
  /\ (forall s1 s2, EXCEL_STATUS_FILLS s1 = EXCEL_STATUS_FILLS s2 <-> s1 = s2).
Proof.
  intros rows. subst rows. unfold reportData, rowFills.
  split; [apply length_fmap|]. split; [apply length_imap|]. split.
  - intros index r Hr. exists (reportRow toLocaleDateString weekdayLong r).
    split; [by rewrite list_lookup_fmap, Hr|].
    split; [reflexivity|]. split; [reflexivity|].
    assert (Hfalse : forall o d, truthy o = false -> orElse o d = d).
    { intros [s|] d; simpl; [|reflexivity].
      destruct (String.eqb s ""); [reflexivity | discriminate]. }
    repeat split.
    + eexists; split; [reflexivity | by apply orElse_not_empty].
    + eexists; split; [reflexivity | by apply orElse_not_empty].
    + eexists; split; [reflexivity | by apply orElse_not_empty].
    + eexists; split; [reflexivity | by apply orElse_not_empty].
    + intros H. unfold cellAt. simpl. by rewrite Hfalse.
    + intros H. unfold cellAt. simpl. by rewrite Hfalse.
    + intros H. unfold cellAt. simpl. by rewrite Hfalse.
    + intros H. unfold cellAt. simpl. by rewrite H.
    + rewrite list_lookup_imap, Hr. simpl. do 2 f_equal. lia.
  - intros s1 s2. split; [apply EXCEL_STATUS_FILLS_inj | by intros ->].
Qed.

(** X19: the labels of the detail sheet and the keys of its row objects.  Of
    the seven labels [exportToExcel] passes as [header] only Date, Day and
    Status are keys of a row object; the keys InTime, OutTime, TotalHours and
    Reason of every row are none of the labels. *)
Theorem exportToExcel_headers_and_keys toLocaleDateString weekdayLong
    (r : AttendanceRecord) :
  let keys := keysOf (reportRow toLocaleDateString weekdayLong r) in
  length headers = length keys
  /\ filter (fun h => h ∈ keys) headers = ["Date"; "Day"; "Status"]
  /\ filter (fun k => k ∉ headers) keys = ["InTime"; "OutTime"; "TotalHours"; "Reason"].
Proof. intros keys. subst keys. repeat split. Qed.

(** The summary sheet: six heading rows, then the label and the value of
    each stat, in order. *)
Lemma summaryData_rows toLocaleDateString summary employeeName rangeStart rangeEnd :
  let rows := summaryData toLocaleDateString summary employeeName rangeStart rangeEnd in
  length rows = (6 + length summary)%nat
  /\ rows !! 2%nat = Some [CString "Employee Name:"; CString employeeName]
  /\ drop 6 rows = (fun s => [CString (label s); cellOf (value s)]) <$> summary.
Proof.
  intros rows. subst rows. unfold summaryData.
  split; [|split; reflexivity]. rewrite length_app, length_fmap. reflexivity.
Qed.
